(** * ai-hedge-fund: the dashboard pages and the backtest accounting

    The sources are the React pages of the dashboard
    ([BacktestPage.tsx], [ConfigPage.tsx], [AnalysisPage.tsx]) and the
    README.  The pages are embedded as state transformers over the
    component state: a [useState] setter is a field update, an [async]
    handler is a computation in a state monad with JavaScript completions
    (normal or thrown), [await] turns a settled promise into a completion
    and [try]/[catch]/[finally] is a combinator of that monad.

    JavaScript numbers that hold prices, amounts and values are modelled as
    exact rationals ([Q]); rounding of IEEE doubles is not modelled.
    Numbers that hold counts are modelled as [nat]. *)

From Stdlib Require Import QArith List String Ascii Lia Lqa Bool ZArith.
From Stdlib Require Import DecimalString.
Import ListNotations.

#[local] Set Warnings "-register-all".

Open Scope string_scope.

(** ** Completions, settled promises and the handler monad *)

(** The value carried by a thrown exception: the message of the [Error]. *)
Definition Err : Type := string.

Inductive Completion (A : Type) : Type :=
| Normal (a : A)
| Thrown (e : Err).
Arguments Normal {A} a.
Arguments Thrown {A} e.

(** What a promise is once it has settled. *)
Inductive Settled (A : Type) : Type :=
| Fulfilled (a : A)
| Rejected (e : Err).
Arguments Fulfilled {A} a.
Arguments Rejected {A} e.

Definition Eff (S A : Type) : Type := S -> Completion A * S.

Definition ret {S A : Type} (a : A) : Eff S A :=
  fun s => (Normal a, s).

Definition throw {S A : Type} (e : Err) : Eff S A :=
  fun s => (Thrown e, s).

Definition bind {S A B : Type} (m : Eff S A) (k : A -> Eff S B) : Eff S B :=
  fun s =>
    match m s with
    | (Normal a, s1) => k a s1
    | (Thrown e, s1) => (Thrown e, s1)
    end.

(** [await p]: the value of a fulfilled promise, or its rejection thrown. *)
Definition await {S A : Type} (p : Settled A) : Eff S A :=
  match p with
  | Fulfilled a => ret a
  | Rejected e => throw e
  end.

(** [modify f]: a state setter. Setters never throw. *)
Definition modify {S : Type} (f : S -> S) : Eff S unit :=
  fun s => (Normal tt, f s).

(** [try { body } catch (e) { handler e } finally { fin }].
    The handler runs only when the body throws; [fin] runs in every case,
    and an exception of [fin] replaces the completion reached so far. *)
Definition try_catch_finally {S : Type}
    (body : Eff S unit) (handler : Err -> Eff S unit) (fin : Eff S unit)
  : Eff S unit :=
  fun s =>
    let '(c1, s1) :=
      match body s with
      | (Normal a, s1) => (Normal a, s1)
      | (Thrown e, s1) => handler e s1
      end in
    match fin s1 with
    | (Normal _, s2) => (c1, s2)
    | (Thrown e, s2) => (Thrown e, s2)
    end.

(** [try { body } catch (e) { handler e }], without [finally]. *)
Definition try_catch {S : Type}
    (body : Eff S unit) (handler : Err -> Eff S unit) : Eff S unit :=
  try_catch_finally body handler (ret tt).

Declare Scope eff_scope.
Delimit Scope eff_scope with eff.
Notation "x <- m ;; k" := (bind m (fun x => k))
  (at level 61, m at next level, right associativity) : eff_scope.
Notation "m ;; k" := (bind m (fun _ => k))
  (at level 61, right associativity) : eff_scope.

(** The completion and the final state of a handler started in [s]. *)
Definition completion {S A : Type} (m : Eff S A) (s : S) : Completion A := fst (m s).
Definition exec {S A : Type} (m : Eff S A) (s : S) : S := snd (m s).

(** ** Toasts (hooks/use-toast) *)

Record Toast : Type := mkToast {
  title : string;
  description : string;
  destructive : bool   (* variant: 'destructive' *)
}.

(** ** Market data *)

(** Modelled from the spec: a Bar is {date, open, high, low, close, volume}.
    Dates are the ISO strings the sources use throughout ('2024-01-01').
    No source file declares the type. *)
Record Bar : Type := mkBar {
  bar_date : string;
  bar_open : Q;
  bar_high : Q;
  bar_low : Q;
  bar_close : Q;
  bar_volume : Q
}.

(** Modelled from the spec: a Series is an ordered sequence of Bars for one
    symbol. *)
Definition Series : Type := list Bar.

(** Modelled from the spec: the Market Data Adapter interface
    [fetch_series(symbol, start_date, end_date) -> Series], [None] standing
    for [DataUnavailable].  No source file implements or calls it. *)
Definition Adapter : Type := string -> string -> string -> option Series.

(** Modelled from the spec: the action of a Decision is one of buy, sell
    and hold.  The page has the labels of its action column instead. *)
Inductive Action : Type := Buy | Sell | Hold.

(** ** BacktestPage.tsx *)

Module BacktestPage.

(** interface TradeRecord (lines 7-13). *)
Record TradeRecord : Type := mkTradeRecord {
  date : string;
  action : string;
  price : Q;
  amount : Q;
  value : Q
}.

(** The state object of [useState({totalTrades, profitableTrades, totalReturn})]. *)
Record Stats : Type := mkStats {
  totalTrades : nat;
  profitableTrades : nat;
  totalReturn : Q
}.

(** The component state, one field per [useState], and the browser
    console the handler writes to. *)
Record State : Type := mkState {
  startDate : string;
  endDate : string;
  loading : bool;
  results : list TradeRecord;
  stats : Stats;
  console : list (string * Err)
}.

Definition init : State :=
  {| startDate := ""; endDate := ""; loading := false; results := [];
     stats := {| totalTrades := 0; profitableTrades := 0; totalReturn := 0 |};
     console := [] |}.

Definition setStartDate (v : string) (s : State) : State :=
  {| startDate := v; endDate := endDate s; loading := loading s;
     results := results s; stats := stats s; console := console s |}.
Definition setEndDate (v : string) (s : State) : State :=
  {| startDate := startDate s; endDate := v; loading := loading s;
     results := results s; stats := stats s; console := console s |}.
Definition setLoading (v : bool) (s : State) : State :=
  {| startDate := startDate s; endDate := endDate s; loading := v;
     results := results s; stats := stats s; console := console s |}.
Definition setResults (v : list TradeRecord) (s : State) : State :=
  {| startDate := startDate s; endDate := endDate s; loading := loading s;
     results := v; stats := stats s; console := console s |}.
Definition setStats (v : Stats) (s : State) : State :=
  {| startDate := startDate s; endDate := endDate s; loading := loading s;
     results := results s; stats := v; console := console s |}.
Definition console_error (msg : string) (e : Err) (s : State) : State :=
  {| startDate := startDate s; endDate := endDate s; loading := loading s;
     results := results s; stats := stats s;
     console := console s ++ [(msg, e)] |}.

(** What lies outside the component: the promise awaited at line 30.
    In the source it is a two-second timer, which always fulfils; it
    stands where the API call is to come (the TODO of line 29), so the
    environment may settle it either way and the [catch] branch is
    covered. *)
Record World : Type := mkWorld {
  pending : Settled unit
}.

(** const sampleResults (lines 32-37). *)
Definition sampleResults : list TradeRecord :=
  [ {| date := "2024-01-01"; action := "买入"; price := 42150.23;
       amount := 0.5; value := 21075.115 |};
    {| date := "2024-01-15"; action := "卖出"; price := 43500.00;
       amount := 0.5; value := 21750.00 |};
    {| date := "2024-02-01"; action := "买入"; price := 41800.00;
       amount := 0.6; value := 25080.00 |};
    {| date := "2024-02-15"; action := "卖出"; price := 44200.00;
       amount := 0.6; value := 26520.00 |} ].

(** The argument of [setStats] (lines 39-43). *)
Definition sampleStats : Stats :=
  {| totalTrades := 4; profitableTrades := 2; totalReturn := 8.5 |}.

(** const runBacktest = async () => { ... } (lines 26-49). *)
Definition runBacktest (w : World) : Eff State unit :=
  (modify (setLoading true) ;;
   try_catch_finally
     (await (pending w) ;;
      modify (setResults sampleResults) ;;
      modify (setStats sampleStats))
     (fun error => modify (console_error "Backtest failed:" error))
     (modify (setLoading false)))%eff.

(** JavaScript truthiness of a string: the empty string is falsy. *)
Definition truthy (s : string) : bool :=
  match s with EmptyString => false | String _ _ => true end.

(** disabled={loading || !startDate || !endDate} (line 78). *)
Definition button_disabled (s : State) : bool :=
  loading s || negb (truthy (startDate s)) || negb (truthy (endDate s)).

(** What the user can do on the page. A click on a disabled button does
    nothing. *)
Inductive Event : Type :=
| ChangeStartDate (v : string)
| ChangeEndDate (v : string)
| ClickRun (w : World).

Definition handle (s : State) (ev : Event) : State :=
  match ev with
  | ChangeStartDate v => setStartDate v s
  | ChangeEndDate v => setEndDate v s
  | ClickRun w => if button_disabled s then s else exec (runBacktest w) s
  end.

Definition session (evs : list Event) : State := fold_left handle evs init.

End BacktestPage.

(** ** ConfigPage.tsx *)

Module ConfigPage.

(** interface ApiKeys (lines 8-12). *)
Record ApiKeys : Type := mkApiKeys {
  openai : string;
  anthropic : string;
  coinmarketcap : string
}.

(** keyof ApiKeys. *)
Inductive ApiKey : Type := Openai | Anthropic | Coinmarketcap.

Definition get (k : ApiKey) (a : ApiKeys) : string :=
  match k with
  | Openai => openai a
  | Anthropic => anthropic a
  | Coinmarketcap => coinmarketcap a
  end.

(** The object spread [{ ...prev, [key]: v }]. *)
Definition spread_with (prev : ApiKeys) (key : ApiKey) (v : string) : ApiKeys :=
  match key with
  | Openai =>
      {| openai := v; anthropic := anthropic prev; coinmarketcap := coinmarketcap prev |}
  | Anthropic =>
      {| openai := openai prev; anthropic := v; coinmarketcap := coinmarketcap prev |}
  | Coinmarketcap =>
      {| openai := openai prev; anthropic := anthropic prev; coinmarketcap := v |}
  end.

(** The component state and the toasts shown so far. *)
Record State : Type := mkState {
  loading : bool;
  apiKeys : ApiKeys;
  toasts : list Toast
}.

Definition init : State :=
  {| loading := false;
     apiKeys := {| openai := ""; anthropic := ""; coinmarketcap := "" |};
     toasts := [] |}.

Definition setLoading (v : bool) (s : State) : State :=
  {| loading := v; apiKeys := apiKeys s; toasts := toasts s |}.
Definition setApiKeys (f : ApiKeys -> ApiKeys) (s : State) : State :=
  {| loading := loading s; apiKeys := f (apiKeys s); toasts := toasts s |}.
Definition push_toast (t : Toast) (s : State) : State :=
  {| loading := loading s; apiKeys := apiKeys s; toasts := toasts s ++ [t] |}.

(** What lies outside the component: the promises awaited by the two
    handlers (timers in the source, standing where the API calls are to
    come) and the toast hook, which the environment may make throw. *)
Record World : Type := mkWorld {
  connection_test : Settled unit;
  config_save : Settled unit;
  toast_failure : Toast -> option Err
}.

(** A call of [toast({...})]. *)
Definition toast (w : World) (t : Toast) : Eff State unit :=
  match toast_failure w t with
  | Some e => throw e
  | None => modify (push_toast t)
  end.

(** const handleInputChange = (key) => (e) => setApiKeys(prev => ...)
    (lines 23-28); [v] is [e.target.value]. *)
Definition handleInputChange (key : ApiKey) (v : string) (s : State) : State :=
  setApiKeys (fun prev => spread_with prev key v) s.

(** const testConnection = async () => { ... } (lines 30-48). *)
Definition testConnection (w : World) : Eff State unit :=
  (modify (setLoading true) ;;
   try_catch_finally
     (await (connection_test w) ;;
      toast w {| title := "连接测试成功";
                 description := "所有API密钥验证通过";
                 destructive := false |})
     (fun _ =>
      toast w {| title := "连接测试失败";
                 description := "请检查API密钥是否正确";
                 destructive := true |})
     (modify (setLoading false)))%eff.

(** const saveConfig = async () => { ... } (lines 50-68). *)
Definition saveConfig (w : World) : Eff State unit :=
  (modify (setLoading true) ;;
   try_catch_finally
     (await (config_save w) ;;
      toast w {| title := "配置保存成功";
                 description := "API密钥已更新";
                 destructive := false |})
     (fun _ =>
      toast w {| title := "配置保存失败";
                 description := "请稍后重试";
                 destructive := true |})
     (modify (setLoading false)))%eff.

(** The shape the two handlers share: the flag is raised, a
    promise is awaited, one toast reports success and another failure,
    and the flag is dropped in the [finally] block. *)
Definition guarded (w : World) (p : Settled unit) (good bad : Toast) : Eff State unit :=
  (modify (setLoading true) ;;
   try_catch_finally
     (await p ;; toast w good)
     (fun _ => toast w bad)
     (modify (setLoading false)))%eff.

End ConfigPage.

(** ** AnalysisPage.tsx *)

Module AnalysisPage.

(** A value received from the server: what [response.json()] yields. *)
Inductive Json : Type :=
| JUndefined
| JNull
| JBool (b : bool)
| JNum (q : Q)
| JStr (s : string)
| JArr (items : list Json)
| JObj (fields : list (string * Json)).

Fixpoint lookup (k : string) (fields : list (string * Json)) : Json :=
  match fields with
  | [] => JUndefined
  | (k', v) :: rest => if String.eqb k k' then v else lookup k rest
  end.

(** [v.name]: reading a property of [null] or [undefined] throws a
    TypeError; a missing property reads as [undefined].  The properties
    of primitives and arrays that the page never reads are not modelled:
    they read as [undefined]. *)
Definition get_property {S : Type} (v : Json) (name : string) : Eff S Json :=
  match v with
  | JUndefined => throw ("TypeError: Cannot read properties of undefined (reading '" ++ name ++ "')")
  | JNull => throw ("TypeError: Cannot read properties of null (reading '" ++ name ++ "')")
  | JObj fields => ret (lookup name fields)
  | _ => ret JUndefined
  end.

(** A fetch Response: [ok], [status] and the promise of [json()]. *)
Record Response : Type := mkResponse {
  ok : bool;
  status : nat;
  json : Settled Json
}.

(** The component state, the toasts shown and the console. The values of
    [marketData] and [agents] are whatever the server sent. *)
Record State : Type := mkState {
  cryptocurrencies : Json;
  selectedCrypto : string;
  marketData : Json;
  agents : Json;
  loading : bool;
  toasts : list Toast;
  console : list (string * Err)
}.

Definition agent (t c : string) : Json :=
  JObj [("title", JStr t); ("content", JStr c); ("loading", JBool false)].

Definition init : State :=
  {| cryptocurrencies := JArr [];
     selectedCrypto := "BTC";
     marketData := JObj [("price", JNum 0); ("change24h", JNum 0); ("volume", JNum 0)];
     agents := JArr
       [ agent "市场数据代理" "价格趋势分析显示BTC处于盘整阶段...";
         agent "情绪代理" "市场情绪偏向谨慎，社交媒体讨论热度适中...";
         agent "技术代理" "RSI指标显示超卖，MACD即将形成金叉...";
         agent "风险代理" "当前市场波动性较高，建议控制仓位...";
         agent "投资组合代理" "建议当前仓位保持在30%，等待更好的入场机会..." ];
     loading := false;
     toasts := [];
     console := [] |}.

Definition setCryptocurrencies (v : Json) (s : State) : State :=
  {| cryptocurrencies := v; selectedCrypto := selectedCrypto s;
     marketData := marketData s; agents := agents s; loading := loading s;
     toasts := toasts s; console := console s |}.
Definition setMarketData (v : Json) (s : State) : State :=
  {| cryptocurrencies := cryptocurrencies s; selectedCrypto := selectedCrypto s;
     marketData := v; agents := agents s; loading := loading s;
     toasts := toasts s; console := console s |}.
Definition setAgents (v : Json) (s : State) : State :=
  {| cryptocurrencies := cryptocurrencies s; selectedCrypto := selectedCrypto s;
     marketData := marketData s; agents := v; loading := loading s;
     toasts := toasts s; console := console s |}.
Definition setLoading (v : bool) (s : State) : State :=
  {| cryptocurrencies := cryptocurrencies s; selectedCrypto := selectedCrypto s;
     marketData := marketData s; agents := agents s; loading := v;
     toasts := toasts s; console := console s |}.
Definition push_toast (t : Toast) (s : State) : State :=
  {| cryptocurrencies := cryptocurrencies s; selectedCrypto := selectedCrypto s;
     marketData := marketData s; agents := agents s; loading := loading s;
     toasts := toasts s ++ [t]; console := console s |}.
Definition console_error (msg : string) (e : Err) (s : State) : State :=
  {| cryptocurrencies := cryptocurrencies s; selectedCrypto := selectedCrypto s;
     marketData := marketData s; agents := agents s; loading := loading s;
     toasts := toasts s; console := console s ++ [(msg, e)] |}.

(** What lies outside the component: the network and the toast hook. *)
Record World : Type := mkWorld {
  fetch : string -> Settled Response;
  toast_failure : Toast -> option Err
}.

Definition toast (w : World) (t : Toast) : Eff State unit :=
  match toast_failure w t with
  | Some e => throw e
  | None => modify (push_toast t)
  end.

(** The decimal text of a number in a template literal. *)
Definition show_nat (n : nat) : string := NilEmpty.string_of_uint (Nat.to_uint n).

(** The guard [if (!response.ok) throw new Error(...)]. *)
Definition check_ok (r : Response) : Eff State unit :=
  if ok r then ret tt else throw ("HTTP error! status: " ++ show_nat (status r)).

(** const fetchCryptocurrencies = async () => { ... } (lines 41-57). *)
Definition fetchCryptocurrencies (w : World) : Eff State unit :=
  try_catch
    (response <- await (fetch w "http://localhost:8000/api/cryptocurrencies") ;;
     check_ok response ;;
     data <- await (json response) ;;
     listed <- get_property data "data" ;;
     modify (setCryptocurrencies listed))%eff
    (fun error =>
     modify (console_error "Error fetching cryptocurrencies:" error) ;;
     toast w {| title := "错误";
                description := "获取加密货币列表失败，请稍后重试";
                destructive := true |})%eff.

(** const refreshAnalysis = async () => { ... } (lines 63-89). *)
Definition refreshAnalysis (w : World) : Eff State unit :=
  (modify (setLoading true) ;;
   try_catch_finally
     (selected <- (fun s => (Normal (selectedCrypto s), s)) ;;
      response <- await (fetch w ("http://localhost:8000/api/market-data/" ++ selected)) ;;
      check_ok response ;;
      data <- await (json response) ;;
      modify (setMarketData data) ;;
      analysisResponse <- await (fetch w ("http://localhost:8000/api/analysis/" ++ selected)) ;;
      check_ok analysisResponse ;;
      analysisData <- await (json analysisResponse) ;;
      fetched <- get_property analysisData "agents" ;;
      modify (setAgents fetched))
     (fun error =>
      modify (console_error "Failed to refresh analysis:" error) ;;
      toast w {| title := "错误";
                 description := "更新市场数据失败，请稍后重试";
                 destructive := true |})
     (modify (setLoading false)))%eff.

End AnalysisPage.

(** ** Reading the records of the page *)

Module PageRecords.
Import BacktestPage.

(** *** The record as the object the page receives *)

Inductive JsValue : Type :=
| VString (s : string)
| VNumber (q : Q).

Inductive JsType : Type := TString | TNumber.

Definition type_of (v : JsValue) : JsType :=
  match v with
  | VString _ => TString
  | VNumber _ => TNumber
  end.

(** The own properties of a TradeRecord object, in the order of the
    interface declaration and of the object literals. *)
Definition to_object (r : TradeRecord) : list (string * JsValue) :=
  [ ("date", VString (date r));
    ("action", VString (action r));
    ("price", VNumber (price r));
    ("amount", VNumber (amount r));
    ("value", VNumber (value r)) ].

Definition keys (o : list (string * JsValue)) : list string := map fst o.
Definition shape (o : list (string * JsValue)) : list (string * JsType) :=
  map (fun kv => (fst kv, type_of (snd kv))) o.

(** The fields the specification lists for a TradeRecord, in its words. *)
Definition spec_fields : list string :=
  [ "date"; "action"; "price"; "quantity"; "trade value";
    "resulting cash"; "resulting quantity"; "resulting total equity" ].

(** An object carries the fields of the specification when it has one
    property of its own for each of them, whatever the properties are
    called. *)
Definition carries_spec_fields (o : list (string * JsValue)) : Prop :=
  exists props : list string,
    NoDup props /\ List.length props = List.length spec_fields /\ incl props (keys o).

(** The columns of the records table (lines 116-120, 126-130): the header
    and the field each cell reads. *)
Definition table_columns : list (string * string) :=
  [ ("日期", "date"); ("操作", "action"); ("价格", "price");
    ("数量", "amount"); ("价值", "value") ].

(** *** Dates *)

Definition digit (c : ascii) : option nat :=
  let n := nat_of_ascii c in
  if (48 <=? n)%nat && (n <=? 57)%nat then Some (n - 48)%nat else None.

(** The number written by a string of decimal digits. *)
Fixpoint digits (acc : nat) (s : string) : option nat :=
  match s with
  | EmptyString => Some acc
  | String c rest =>
      match digit c with
      | Some d => digits (10 * acc + d) rest
      | None => None
      end
  end.

(** A date 'YYYY-MM-DD' as (year, month, day). *)
Definition parse_date (s : string) : option (nat * nat * nat) :=
  if (String.length s =? 10)%nat
     && String.eqb (substring 4 1 s) "-"
     && String.eqb (substring 7 1 s) "-"
  then
    match digits 0 (substring 0 4 s), digits 0 (substring 5 2 s),
          digits 0 (substring 8 2 s) with
    | Some y, Some m, Some d => Some (y, m, d)
    | _, _, _ => None
    end
  else None.

(** Calendar order. *)
Definition day_ltb (a b : nat * nat * nat) : bool :=
  let '(y1, m1, d1) := a in
  let '(y2, m2, d2) := b in
  (y1 <? y2)%nat
  || ((y1 =? y2)%nat && ((m1 <? m2)%nat || ((m1 =? m2)%nat && (d1 <? d2)%nat))).

(** [date_ltb a b]: both strings are dates and [a] is the earlier day. *)
Definition date_ltb (a b : string) : bool :=
  match parse_date a, parse_date b with
  | Some x, Some y => day_ltb x y
  | _, _ => false
  end.

(** Each element is below the next one. *)
Fixpoint ascending {A : Type} (ltb : A -> A -> bool) (l : list A) : bool :=
  match l with
  | [] => true
  | x :: rest =>
      match rest with
      | [] => true
      | y :: _ => ltb x y && ascending ltb rest
      end
  end.

Definition dates (rs : list TradeRecord) : list string := map date rs.

(** *** Actions and the replay of a record sequence *)

(** The label of the action column: 买入 is buy, 卖出 is sell. The page
    shows no other label; any other is read as hold. *)
Definition action_of (label : string) : Action :=
  if String.eqb label "买入" then Buy
  else if String.eqb label "卖出" then Sell
  else Hold.

(** Cash, quantity held and average cost while the records are replayed. *)
Record Book : Type := mkBook {
  cash : Q;
  held : Q;
  avg_cost : Q
}.

Definition opening (initial_cash : Q) : Book :=
  {| cash := initial_cash; held := 0; avg_cost := 0 |}.

(** One record applied: a buy converts the trade value of cash into
    position at the weighted average cost, a sell credits the trade value
    and reduces the position, a hold changes nothing. *)
Definition post (b : Book) (r : TradeRecord) : Book :=
  match action_of (action r) with
  | Buy =>
      {| cash := cash b - value r;
         held := held b + amount r;
         avg_cost := if Qeq_bool (held b + amount r) 0 then 0
                     else (held b * avg_cost b + value r) / (held b + amount r) |}
  | Sell =>
      {| cash := cash b + value r;
         held := held b - amount r;
         avg_cost := avg_cost b |}
  | Hold => b
  end.

Definition replay (initial_cash : Q) (rs : list TradeRecord) : Book :=
  fold_left post rs (opening initial_cash).

(** The quantity implied by a record sequence: buys minus sells. *)
Definition implied_position (rs : list TradeRecord) : Q :=
  held (replay 0 rs).

(** *** The summary statistics, in the words of the specification *)







(** *** Statements about a run of the page *)

(** In every state of a session the results are empty or the simulated
    records. *)
Definition results_known (s : State) : Prop :=
  results s = [] \/ results s = sampleResults.

(** The run fails, and produces no TradeRecord, whenever the market data
    for the requested symbol and date range is unavailable. *)
Definition fails_without_market_data : Prop :=
  forall (adapter : Adapter) (symbol : string) (w : World) (s : State),
    pending w = Fulfilled tt ->
    results s = [] ->
    adapter symbol (startDate s) (endDate s) = None ->
    (exists reason, completion (runBacktest w) s = Thrown reason) /\
    results (exec (runBacktest w) s) = [].

End PageRecords.

(** ** The backtest engine

    The README documents [src/backtester.py] and prints a run of it; the
    file itself is not among the sources.  The engine is therefore written
    down from the specification (4.3), and checked against the run the
    README prints. *)

Module BacktestEngine.

(** Modelled from the spec: Decision is {action in {buy, sell, hold},
    quantity}; the terminal output of one pipeline run for one date. *)
Record Decision : Type := mkDecision {
  d_action : Action;
  d_quantity : Q
}.

(** Modelled from the spec: Position is {quantity held, average cost
    basis}. *)
Record Position : Type := mkPosition {
  quantity_held : Q;
  average_cost : Q
}.

(** Modelled from the spec: PortfolioState is {cash, Position, valuation
    date}. *)
Record PortfolioState : Type := mkPortfolio {
  cash : Q;
  position : Position;
  valuation_date : string
}.

(** Modelled from the spec: TradeRecord is {date, action, price,
    quantity, trade value, resulting cash, resulting quantity, resulting
    total equity}.  The quantity is the quantity executed. *)
Record TradeRecord : Type := mkTradeRecord {
  date : string;
  action : Action;
  price : Q;
  quantity : Q;
  trade_value : Q;
  cash_after : Q;
  quantity_after : Q;
  total_equity : Q
}.

(** Modelled from the spec: what happens to a buy that would overdraw the
    cash, "clamped or rejected". *)
Inductive OverdrawPolicy : Type := ClampBuy | RejectBuy.

(** Modelled from the spec: the Agent Pipeline as a replaceable decision
    function of the analysis context, which is the series truncated to
    the current date and a read-only snapshot of the portfolio. *)
Definition Pipeline : Type := Series -> PortfolioState -> Decision.

(** Modelled from the spec: the configuration of a run: the pipeline, the
    overdraw policy, and whether hold days are recorded ("one per
    simulated day (including hold rows) or only for non-hold days, per
    configuration"). *)
Record Config : Type := mkConfig {
  pipeline : Pipeline;
  on_overdraw : OverdrawPolicy;
  record_holds : bool
}.

(** Modelled from the spec: initial state sets PortfolioState to a
    configured starting cash and zero position. *)
Definition initial (starting_cash : Q) (start_date : string) : PortfolioState :=
  {| cash := starting_cash;
     position := {| quantity_held := 0; average_cost := 0 |};
     valuation_date := start_date |}.

(** Modelled from the spec: the quantity executed for a decision at the
    closing price: a buy that would overdraw is clamped to what the cash
    buys or rejected, a sell is min(quantity, held quantity), a hold
    trades nothing. *)
Definition executed_quantity (policy : OverdrawPolicy) (st : PortfolioState)
    (close : Q) (dec : Decision) : Q :=
  match d_action dec with
  | Buy =>
      if Qle_bool (d_quantity dec * close) (cash st) then d_quantity dec
      else match policy with
           | ClampBuy => cash st / close
           | RejectBuy => 0
           end
  | Sell =>
      if Qle_bool (d_quantity dec) (quantity_held (position st))
      then d_quantity dec
      else quantity_held (position st)
  | Hold => 0
  end.

(** Modelled from the spec: the execution rules of step 3.  A buy
    converts quantity x close(d) of cash into Position, the average cost
    basis moving by weighted average; a sell reduces Position and credits
    cash at close(d); a hold leaves cash and Position unchanged. *)
Definition settle (st : PortfolioState) (day : string) (close : Q)
    (act : Action) (q : Q) : PortfolioState :=
  let held := quantity_held (position st) in
  let avg := average_cost (position st) in
  match act with
  | Buy =>
      {| cash := cash st - q * close;
         position :=
           {| quantity_held := held + q;
              average_cost := if Qeq_bool (held + q) 0 then avg
                              else (held * avg + q * close) / (held + q) |};
         valuation_date := day |}
  | Sell =>
      {| cash := cash st + q * close;
         position := {| quantity_held := held - q; average_cost := avg |};
         valuation_date := day |}
  | Hold =>
      {| cash := cash st; position := position st; valuation_date := day |}
  end.

(** Modelled from the spec: steps 3 and 4 for one date: the decision is
    executed at the closing price of the bar, total equity is
    cash + quantity x close(d), and one TradeRecord is made. *)
Definition execute (policy : OverdrawPolicy) (st : PortfolioState)
    (bar : Bar) (dec : Decision) : PortfolioState * TradeRecord :=
  let close := bar_close bar in
  let q := executed_quantity policy st close dec in
  let st' := settle st (bar_date bar) close (d_action dec) q in
  (st',
   {| date := bar_date bar;
      action := d_action dec;
      price := close;
      quantity := q;
      trade_value := q * close;
      cash_after := cash st';
      quantity_after := quantity_held (position st');
      total_equity := cash st' + quantity_held (position st') * close |}).

Definition is_hold (a : Action) : bool :=
  match a with Hold => true | _ => false end.

(** Modelled from the spec: the loop over the dates in increasing order.
    [seen] holds the bars before the current one, so the context handed
    to the pipeline is bounded to bars with date <= d. *)
Fixpoint simulate (cfg : Config) (seen todo : Series) (st : PortfolioState)
  : list TradeRecord :=
  match todo with
  | [] => []
  | bar :: rest =>
      let context := (seen ++ [bar])%list in
      let dec := pipeline cfg context st in
      let '(st', record) := execute (on_overdraw cfg) st bar dec in
      if record_holds cfg || negb (is_hold (action record))
      then record :: simulate cfg context rest st'
      else simulate cfg context rest st'
  end.

(** Modelled from the spec: the reasons of a failed run. *)
Inductive Failure : Type := PreconditionFailure.

(** Modelled from the spec: [BacktestResult | Failed(reason)].  Of the
    BacktestResult only the TradeRecord sequence is kept here; the
    summary statistics are derived from it. *)
Inductive Outcome : Type :=
| Failed (reason : Failure)
| Completed (records : list TradeRecord).

(** Modelled from the spec: the entry point
    [run_backtest(symbol, start_date, end_date, starting_cash,
    pipeline_config)].  The run fails when the adapter cannot supply bars
    for the requested range at all. *)
Definition run_backtest (adapter : Adapter) (symbol start_date end_date : string)
    (starting_cash : Q) (cfg : Config) : Outcome :=
  match adapter symbol start_date end_date with
  | None => Failed PreconditionFailure
  | Some [] => Failed PreconditionFailure
  | Some series => Completed (simulate cfg [] series (initial starting_cash start_date))
  end.

(** The closing price of a date in a series. *)
Definition close_on (series : Series) (day : string) : option Q :=
  match find (fun b => String.eqb (bar_date b) day) series with
  | Some b => Some (bar_close b)
  | None => None
  end.

(** The quantity a record adds to the position. *)
Definition signed_quantity (r : TradeRecord) : Q :=
  match action r with
  | Buy => quantity r
  | Sell => - quantity r
  | Hold => 0
  end.

(** The cumulative position implied by a record sequence: the sum of the
    buy quantities minus the sell quantities. *)
Fixpoint implied_position (rs : list TradeRecord) : Q :=
  match rs with
  | [] => 0
  | r :: rest => signed_quantity r + implied_position rest
  end.

(** *** The run printed in the README *)

(** One line of the backtester's output table:
    Date, Ticker, Action, Quantity, Price, Cash, Crypto, Total Value. *)
Record Row : Type := mkRow {
  row_date : string;
  row_ticker : string;
  row_action : Action;
  row_quantity : Q;
  row_price : Q;
  row_cash : Q;
  row_crypto : Q;
  row_total_value : Q
}.

(** README, "Running the Backtester", example output. *)
Definition readme_rows : list Row :=
  [ mkRow "2024-01-01" "BTC" Buy 0.5 42000.00 79000.00 0.5 100000.00;
    mkRow "2024-01-02" "BTC" Hold 0 43500.00 79000.00 0.5 100750.00;
    mkRow "2024-01-03" "BTC" Hold 0 44000.00 79000.00 0.5 101000.00;
    mkRow "2024-01-04" "BTC" Sell 0.5 45000.00 101500.00 0.0 101500.00 ].

(** The series of the printed run: only dates and prices are printed, so
    every price field of a bar is the printed price and the volume 0. *)
Definition readme_series : Series :=
  map (fun r => mkBar (row_date r) (row_price r) (row_price r) (row_price r)
                      (row_price r) 0) readme_rows.

(** A pipeline that replays the printed decisions by date. *)
Definition scripted (script : list (string * Decision)) : Pipeline :=
  fun context _ =>
    match rev context with
    | [] => mkDecision Hold 0
    | bar :: _ =>
        match find (fun e => String.eqb (fst e) (bar_date bar)) script with
        | Some e => snd e
        | None => mkDecision Hold 0
        end
    end.

Definition readme_script : list (string * Decision) :=
  map (fun r => (row_date r, mkDecision (row_action r) (row_quantity r))) readme_rows.

Definition readme_adapter : Adapter :=
  fun symbol _ _ => if String.eqb symbol "BTC" then Some readme_series else None.

Definition readme_config : Config :=
  {| pipeline := scripted readme_script; on_overdraw := ClampBuy; record_holds := true |}.

Definition action_eqb (a b : Action) : bool :=
  match a, b with
  | Buy, Buy | Sell, Sell | Hold, Hold => true
  | _, _ => false
  end.

(** A record agrees with a printed line. *)
Definition agrees (r : TradeRecord) (row : Row) : bool :=
  String.eqb (date r) (row_date row)
  && action_eqb (action r) (row_action row)
  && Qeq_bool (quantity r) (row_quantity row)
  && Qeq_bool (price r) (row_price row)
  && Qeq_bool (cash_after r) (row_cash row)
  && Qeq_bool (quantity_after r) (row_crypto row)
  && Qeq_bool (total_equity r) (row_total_value row).

Fixpoint all_agree (rs : list TradeRecord) (rows : list Row) : bool :=
  match rs, rows with
  | [], [] => true
  | r :: rs', row :: rows' => agrees r row && all_agree rs' rows'
  | _, _ => false
  end.

(** *** A run with an oversell and an overdraw (Scenario B) *)

Definition oversell_series : Series :=
  [ mkBar "2024-01-01" 42000 42000 42000 42000 0;
    mkBar "2024-01-02" 45000 45000 45000 45000 0;
    mkBar "2024-01-03" 40000 40000 40000 40000 0 ].

(** Buy 0.5, then sell 2 with 0.5 held, then buy 10 with cash for less. *)
Definition oversell_script : list (string * Decision) :=
  [ ("2024-01-01", mkDecision Buy 0.5);
    ("2024-01-02", mkDecision Sell 2);
    ("2024-01-03", mkDecision Buy 10) ].

Definition oversell_adapter : Adapter := fun _ _ _ => Some oversell_series.

Definition oversell_config (policy : OverdrawPolicy) : Config :=
  {| pipeline := scripted oversell_script; on_overdraw := policy;
     record_holds := false |}.

End BacktestEngine.


(** ** The records of the page as a run of the engine *)

Module PageAndEngine.

(** A record of the engine agrees with a record of the page on the five
    fields the page has. *)
Definition agrees (r : BacktestEngine.TradeRecord) (p : BacktestPage.TradeRecord) : bool :=
  String.eqb (BacktestEngine.date r) (BacktestPage.date p)
  && BacktestEngine.action_eqb (BacktestEngine.action r)
       (PageRecords.action_of (BacktestPage.action p))
  && Qeq_bool (BacktestEngine.price r) (BacktestPage.price p)
  && Qeq_bool (BacktestEngine.quantity r) (BacktestPage.amount p)
  && Qeq_bool (BacktestEngine.trade_value r) (BacktestPage.value p).

Fixpoint all_agree (rs : list BacktestEngine.TradeRecord)
    (ps : list BacktestPage.TradeRecord) : bool :=
  match rs, ps with
  | [], [] => true
  | r :: rs', p :: ps' => agrees r p && all_agree rs' ps'
  | _, _ => false
  end.

(** The series and the decisions the simulated records of the page stand
    for: a bar per record at the record's price, the record's action and
    amount as the decision of its date. *)
Definition series_of (ps : list BacktestPage.TradeRecord) : Series :=
  map (fun p => mkBar (BacktestPage.date p) (BacktestPage.price p) (BacktestPage.price p)
                      (BacktestPage.price p) (BacktestPage.price p) 0) ps.

Definition script_of (ps : list BacktestPage.TradeRecord)
  : list (string * BacktestEngine.Decision) :=
  map (fun p => (BacktestPage.date p,
                 BacktestEngine.mkDecision (PageRecords.action_of (BacktestPage.action p))
                                           (BacktestPage.amount p))) ps.

Definition config_of (ps : list BacktestPage.TradeRecord) : BacktestEngine.Config :=
  {| BacktestEngine.pipeline := BacktestEngine.scripted (script_of ps);
     BacktestEngine.on_overdraw := BacktestEngine.RejectBuy;
     BacktestEngine.record_holds := true |}.

(** The last total equity of a record sequence, or the starting cash. *)
Definition closing_equity (starting_cash : Q) (rs : list BacktestEngine.TradeRecord) : Q :=
  match rev rs with
  | [] => starting_cash
  | r :: _ => BacktestEngine.total_equity r
  end.

End PageAndEngine.

(** ** AnalysisPage.tsx: the requests and the returned element *)

Module AnalysisView.
Import AnalysisPage.

(** The three addresses the page requests. *)
Definition listing_url : string := "http://localhost:8000/api/cryptocurrencies".
Definition market_url (symbol : string) : string :=
  "http://localhost:8000/api/market-data/" ++ symbol.
Definition analysis_url (symbol : string) : string :=
  "http://localhost:8000/api/analysis/" ++ symbol.

(** The toasts of the two [catch] blocks (lines 51-55 and 81-85). *)
Definition listing_failed : Toast :=
  {| title := "错误"; description := "获取加密货币列表失败，请稍后重试";
     destructive := true |}.
Definition refresh_failed : Toast :=
  {| title := "错误"; description := "更新市场数据失败，请稍后重试";
     destructive := true |}.

(** What a request brings back when the response arrives, is [ok] and its
    body parses. *)
Definition arrives (w : World) (url : string) : option Json :=
  match fetch w url with
  | Fulfilled r =>
      if ok r then
        match json r with
        | Fulfilled data => Some data
        | Rejected _ => None
        end
      else None
  | Rejected _ => None
  end.

Definition nullish (v : Json) : bool :=
  match v with
  | JUndefined | JNull => true
  | _ => false
  end.

(** The value of [v.name] when reading it does not throw. *)
Definition field (v : Json) (name : string) : Json :=
  match v with
  | JObj fields => lookup name fields
  | _ => JUndefined
  end.

(** How a [catch] block of the page leaves the state it is entered in:
    the error is logged, then the toast is shown unless the hook throws, in
    which case its exception is the completion. *)
Definition reported (w : World) (msg : string) (t : Toast) (e : Err) (s : State)
  : Completion unit * State :=
  match toast_failure w t with
  | None => (Normal tt, push_toast t (console_error msg e s))
  | Some e' => (Thrown e', console_error msg e s)
  end.

(** The two answers of a refresh when both arrive and the second is an
    object whose [agents] can be read: the market data, and the agents. *)
Definition refresh_complete (w : World) (symbol : string) : option (Json * Json) :=
  match arrives w (market_url symbol), arrives w (analysis_url symbol) with
  | Some data, Some payload =>
      if nullish payload then None else Some (data, field payload "agents")
  | _, _ => None
  end.

(** The list of a listing answer when it arrives and its [data] can be
    read. *)
Definition listing_complete (w : World) : option Json :=
  match arrives w listing_url with
  | Some payload => if nullish payload then None else Some (field payload "data")
  | None => None
  end.

Definition setSelectedCrypto (v : string) (s : State) : State :=
  {| cryptocurrencies := cryptocurrencies s; selectedCrypto := v;
     marketData := marketData s; agents := agents s; loading := loading s;
     toasts := toasts s; console := console s |}.

(** *** The return statement of the component (lines 95-158)

    The JSX of the return statement is evaluated for the exceptions its
    own expressions raise: property reads, method calls and [map].  What
    React raises when it creates and mounts the elements (a key that
    cannot be made a string, an object as a child) is not modelled, and
    neither is the text the number methods produce: the model throws only
    where the page throws, and it may complete where the page does not. *)

(** The object has a property of its own under this name. *)
Definition has_key (name : string) (fields : list (string * Json)) : bool :=
  existsb (fun kv => String.eqb (fst kv) name) fields.

(** What [v.toLocaleString()] throws, if anything.  Null and undefined
    have no properties.  Booleans, numbers and strings have the method.
    An object parsed from JSON inherits it, unless a property of its own
    named [toLocaleString] shadows it: no JSON value is callable, so the
    call throws; the inherited method calls [toString], which a property
    of its own can shadow in the same way.  The method of an array calls
    [toLocaleString] on every item that is neither null nor undefined. *)
Fixpoint localize_error (v : Json) : option Err :=
  match v with
  | JUndefined =>
      Some "TypeError: Cannot read properties of undefined (reading 'toLocaleString')"
  | JNull =>
      Some "TypeError: Cannot read properties of null (reading 'toLocaleString')"
  | JBool _ | JNum _ | JStr _ => None
  | JArr items =>
      (fix each (l : list Json) : option Err :=
         match l with
         | [] => None
         | item :: rest =>
             match item with
             | JUndefined | JNull => each rest
             | _ =>
                 match localize_error item with
                 | Some e => Some e
                 | None => each rest
                 end
             end
         end) items
  | JObj fields =>
      if has_key "toLocaleString" fields
      then Some "TypeError: toLocaleString is not a function"
      else if has_key "toString" fields
           then Some "TypeError: toString is not a function"
           else None
  end.

(** [v.toLocaleString()]. *)
Definition call_toLocaleString {S : Type} (v : Json) : Eff S unit :=
  match localize_error v with
  | Some e => throw e
  | None => ret tt
  end.

(** The call [v.toLocaleString()] returns. *)
Definition localizable (v : Json) : bool :=
  match localize_error v with
  | Some _ => false
  | None => true
  end.

(** [v.toFixed(n)]: only numbers have the method. *)
Definition call_toFixed {S : Type} (v : Json) : Eff S unit :=
  match v with
  | JNum _ => ret tt
  | JUndefined => throw "TypeError: Cannot read properties of undefined (reading 'toFixed')"
  | JNull => throw "TypeError: Cannot read properties of null (reading 'toFixed')"
  | _ => throw "TypeError: toFixed is not a function"
  end.

Fixpoint for_each {S : Type} (callback : Json -> Eff S unit) (items : list Json)
  : Eff S unit :=
  match items with
  | [] => ret tt
  | item :: rest => (callback item ;; for_each callback rest)%eff
  end.

(** [v.map(callback)]: only arrays have the method. *)
Definition call_map {S : Type} (v : Json) (callback : Json -> Eff S unit) : Eff S unit :=
  match v with
  | JArr items => for_each callback items
  | JUndefined => throw "TypeError: Cannot read properties of undefined (reading 'map')"
  | JNull => throw "TypeError: Cannot read properties of null (reading 'map')"
  | _ => throw "TypeError: map is not a function"
  end.

(** The callback of lines 105-109: [key] and [value] read [crypto.symbol],
    the children read [crypto.name] and [crypto.symbol]. *)
Definition select_item {S : Type} (crypto : Json) : Eff S unit :=
  (get_property crypto "symbol" ;;
   get_property crypto "symbol" ;;
   get_property crypto "name" ;;
   get_property crypto "symbol" ;;
   ret tt)%eff.

(** The callback of lines 145-154. *)
Definition agent_card {S : Type} (agent : Json) : Eff S unit :=
  (get_property agent "title" ;;
   get_property agent "content" ;;
   ret tt)%eff.

(** The expressions of the return statement, in the order they are
    evaluated. *)
Definition returned (s : State) : Eff unit unit :=
  (call_map (cryptocurrencies s) select_item ;;
   price <- get_property (marketData s) "price" ;;
   call_toLocaleString price ;;
   get_property (marketData s) "change24h" ;;
   change <- get_property (marketData s) "change24h" ;;
   call_toFixed change ;;
   volume <- get_property (marketData s) "volume" ;;
   call_toFixed volume ;;
   call_map (agents s) agent_card)%eff.

(** The completion of the component's return statement in state [s]. *)
Definition render (s : State) : Completion unit := completion (returned s) tt.

(** An array none of whose items is null or undefined. *)
Definition array_of_values (v : Json) : bool :=
  match v with
  | JArr items => forallb (fun item => negb (nullish item)) items
  | _ => false
  end.

Definition is_number (v : Json) : bool :=
  match v with
  | JNum _ => true
  | _ => false
  end.

(** Market data the return statement can show. *)
Definition shows_market (data : Json) : bool :=
  localizable (field data "price")
  && is_number (field data "change24h")
  && is_number (field data "volume").

(** A state in which the expressions of the return statement raise
    nothing. *)
Definition renderable (s : State) : bool :=
  array_of_values (cryptocurrencies s)
  && shows_market (marketData s)
  && array_of_values (agents s).

(** *** The declared types of the state, at run time *)

Definition is_string (v : Json) : bool :=
  match v with
  | JStr _ => true
  | _ => false
  end.

Definition is_boolean (v : Json) : bool :=
  match v with
  | JBool _ => true
  | _ => false
  end.

(** An array all of whose items pass the test. *)
Definition array_of (test : Json -> bool) (v : Json) : bool :=
  match v with
  | JArr items => forallb test items
  | _ => false
  end.

(** interface MarketData (lines 9-13): three numbers. *)
Definition is_MarketData (v : Json) : bool :=
  is_number (field v "price")
  && is_number (field v "change24h")
  && is_number (field v "volume").

(** interface AgentAnalysis (lines 15-19): two strings and a boolean. *)
Definition is_AgentAnalysis (v : Json) : bool :=
  is_string (field v "title")
  && is_string (field v "content")
  && is_boolean (field v "loading").

(** The item type of [cryptocurrencies] (line 23). *)
Definition is_Cryptocurrency (v : Json) : bool :=
  is_string (field v "symbol") && is_string (field v "name").

(** The three values the server fills have the types their [useState]
    declares. *)
Definition typed (s : State) : bool :=
  array_of is_Cryptocurrency (cryptocurrencies s)
  && is_MarketData (marketData s)
  && array_of is_AgentAnalysis (agents s).

(** A server whose answers have the types the page declares for them,
    whatever the symbol asked for. *)
Definition well_typed (w : World) : Prop :=
  (forall payload, arrives w listing_url = Some payload ->
                   array_of is_Cryptocurrency (field payload "data") = true) /\
  (forall symbol data, arrives w (market_url symbol) = Some data ->
                       is_MarketData data = true) /\
  (forall symbol payload, arrives w (analysis_url symbol) = Some payload ->
                          array_of is_AgentAnalysis (field payload "agents") = true).

End AnalysisView.

(** ** ConfigPage.tsx: a session of the page *)

Module ConfigSession.
Import ConfigPage.

Definition key_eqb (a b : ApiKey) : bool :=
  match a, b with
  | Openai, Openai | Anthropic, Anthropic | Coinmarketcap, Coinmarketcap => true
  | _, _ => false
  end.

(** disabled={loading} on both buttons (lines 109, 113). *)
Definition button_disabled (s : State) : bool := loading s.

(** What the user can do on the page: type into one of the three inputs,
    or click one of the two buttons.  A click on a disabled button does
    nothing. *)
Inductive Event : Type :=
| Typed (key : ApiKey) (v : string)
| ClickTest (w : World)
| ClickSave (w : World).

Definition handle (s : State) (ev : Event) : State :=
  match ev with
  | Typed key v => handleInputChange key v s
  | ClickTest w => if button_disabled s then s else exec (testConnection w) s
  | ClickSave w => if button_disabled s then s else exec (saveConfig w) s
  end.

Definition session (evs : list Event) : State := fold_left handle evs init.

(** The value last typed into the input of [key], or [current] when
    nothing was typed into it. *)
Fixpoint last_typed (key : ApiKey) (current : string) (evs : list Event) : string :=
  match evs with
  | [] => current
  | Typed k v :: rest => last_typed key (if key_eqb k key then v else current) rest
  | _ :: rest => last_typed key current rest
  end.

End ConfigSession.

(** ** BacktestPage.tsx: what the page shows *)

Module BacktestView.
Import BacktestPage.

(** [results.length > 0 && ...] (line 85): the statistics card and the
    records table are part of the page only then. *)
Definition shows_results (s : State) : bool :=
  (0 <? List.length (results s))%nat.

(** The results and the statistics belong together: either nothing is
    shown and the statistics are the initial zeros, or the simulated
    records are shown with their statistics. *)
Definition together (s : State) : Prop :=
  (results s = [] /\ stats s = stats init /\ shows_results s = false) \/
  (results s = sampleResults /\ stats s = sampleStats /\ shows_results s = true).

(** No event of the session sets the picked date to a non-empty value. *)
Definition never_set (pick : Event -> option string) (evs : list Event) : Prop :=
  forall ev v, In ev evs -> pick ev = Some v -> v = "".

Definition is_start_edit (ev : Event) : option string :=
  match ev with
  | ChangeStartDate v => Some v
  | _ => None
  end.

Definition is_end_edit (ev : Event) : option string :=
  match ev with
  | ChangeEndDate v => Some v
  | _ => None
  end.

End BacktestView.

(** ** BacktestPage.tsx: runBacktest statement by statement

    An invocation of the async handler does not run in one piece: it
    raises the flag and suspends at its [await], the page is rendered and
    takes events meanwhile, and the rest runs when the promise settles.
    Here every statement after the [await] is a step of its own, so that
    every state the page can be rendered in is a state of the model.  The
    model also lets an event fall between two of those statements, which
    JavaScript does not: it has every state of the page, and more. *)

Module BacktestSteps.
Import BacktestPage BacktestView.

(** Where an invocation stands once it has raised the flag (line 27). *)
Inductive Phase : Type :=
| Awaiting        (* suspended at the await of line 30 *)
| ResultsStored   (* setResults of line 38 done *)
| StatsStored     (* setStats of lines 39-43 done *)
| ErrorLogged.    (* console.error of line 45 done *)

(** The component state and the invocations in flight. *)
Record Page : Type := mkPage {
  view : State;
  inflight : list Phase
}.

Definition start : Page := {| view := init; inflight := [] |}.

(** The next statement of an invocation; [None] when it has returned.
    The settlement is read at the [await] only. *)
Definition advance (ph : Phase) (p : Settled unit) (s : State) : State * option Phase :=
  match ph with
  | Awaiting =>
      match p with
      | Fulfilled _ => (setResults sampleResults s, Some ResultsStored)
      | Rejected e => (console_error "Backtest failed:" e s, Some ErrorLogged)
      end
  | ResultsStored => (setStats sampleStats s, Some StatsStored)
  | StatsStored => (setLoading false s, None)
  | ErrorLogged => (setLoading false s, None)
  end.

(** The [i]-th invocation in flight takes its next step. *)
Fixpoint advance_at (i : nat) (p : Settled unit) (s : State) (l : list Phase)
  : State * list Phase :=
  match l with
  | [] => (s, [])
  | ph :: rest =>
      match i with
      | O =>
          match advance ph p s with
          | (s', Some ph') => (s', ph' :: rest)
          | (s', None) => (s', rest)
          end
      | S i' =>
          match advance_at i' p s rest with
          | (s', rest') => (s', ph :: rest')
          end
      end
  end.

(** What can happen to the page: the date inputs are live at all times, a
    click on the enabled button starts an invocation, and an invocation
    in flight takes a step. *)
Inductive Move : Type :=
| EditStart (v : string)
| EditEnd (v : string)
| Click
| Advance (i : nat) (p : Settled unit).

Definition move (pg : Page) (m : Move) : Page :=
  match m with
  | EditStart v => {| view := setStartDate v (view pg); inflight := inflight pg |}
  | EditEnd v => {| view := setEndDate v (view pg); inflight := inflight pg |}
  | Click =>
      if button_disabled (view pg) then pg
      else {| view := setLoading true (view pg);
              inflight := (inflight pg ++ [Awaiting])%list |}
  | Advance i p =>
      match advance_at i p (view pg) (inflight pg) with
      | (s', l') => {| view := s'; inflight := l' |}
      end
  end.

Definition play (ms : list Move) : Page := fold_left move ms start.

(** What holds of the page at every step. *)
Definition consistent (pg : Page) : Prop :=
  match inflight pg with
  | [] => loading (view pg) = false /\ together (view pg)
  | [Awaiting] => loading (view pg) = true /\ together (view pg)
  | [ErrorLogged] => loading (view pg) = true /\ together (view pg)
  | [ResultsStored] =>
      loading (view pg) = true /\ results (view pg) = sampleResults /\
      (stats (view pg) = stats init \/ stats (view pg) = sampleStats)
  | [StatsStored] =>
      loading (view pg) = true /\ results (view pg) = sampleResults /\
      stats (view pg) = sampleStats
  | _ => False
  end.

End BacktestSteps.

(** ** Navbar.tsx and the routes of the application *)

Module Navbar.

Inductive Variant : Type := Default | Ghost.

(** A button of the bar: the path its variant is compared with, the
    target of its link and its text. *)
Record NavLink : Type := mkNavLink {
  active_on : string;
  to : string;
  text : string
}.

(** The three buttons (lines 16-42). *)
Definition links : list NavLink :=
  [ {| active_on := "/analysis"; to := "/analysis"; text := "实时分析" |};
    {| active_on := "/backtest"; to := "/backtest"; text := "回测" |};
    {| active_on := "/config"; to := "/config"; text := "配置" |} ].

(** variant={location.pathname === '...' ? 'default' : 'ghost'}. *)
Definition variant (pathname : string) (l : NavLink) : Variant :=
  if String.eqb pathname (active_on l) then Default else Ghost.

Definition is_default (v : Variant) : bool :=
  match v with Default => true | Ghost => false end.

(** The buttons shown in the default variant on a path. *)
Definition highlighted (pathname : string) : list NavLink :=
  filter (fun l => is_default (variant pathname l)) links.

End Navbar.

Module App.

(** The element of a route. *)
Inductive Element : Type :=
| AnalysisPageElement
| BacktestPageElement
| ConfigPageElement
| Navigate (to : string) (replace : bool).

(** The route table of [App] (lines 14-19): the path pattern of each route
    and its element.  How the router matches a pathname against a pattern
    is not modelled. *)
Definition routes : list (string * Element) :=
  [ ("/analysis", AnalysisPageElement);
    ("/backtest", BacktestPageElement);
    ("/config", ConfigPageElement);
    ("/", Navigate "/analysis" true) ].

(** The targets of the routes that redirect. *)
Definition redirect_targets : list string :=
  flat_map (fun r => match snd r with
                     | Navigate target _ => [target]
                     | _ => []
                     end) routes.

End App.

(** * Properties *)

(** ** The handler monad *)

Section EffFacts.
Context {S : Type}.

Lemma exec_modify_then {A : Type} (f : S -> S) (k : Eff S A) (s : S) :
  (modify f ;; k)%eff s = k (f s).
Proof. reflexivity. Qed.

(** Whatever the body and the handler do, the state a
    [try]/[catch]/[finally] ends in is a state the [finally] block left. *)
Lemma finally_runs_last (body : Eff S unit) (handler : Err -> Eff S unit)
    (fin : Eff S unit) (s : S) :
  exists s1, exec (try_catch_finally body handler fin) s = exec fin s1.
Proof.
  unfold exec, try_catch_finally.
  destruct (body s) as [[a | e] s0].
  - exists s0. destruct (fin s0) as [[u | e'] s2]; reflexivity.
  - destruct (handler e s0) as [c s1]. exists s1.
    destruct (fin s1) as [[u | e'] s2]; reflexivity.
Qed.

(** A property the [finally] block establishes from every state holds
    when the statement completes, normally or not. *)
Lemma finally_establishes (P : S -> Prop) (body : Eff S unit)
    (handler : Err -> Eff S unit) (fin : Eff S unit) :
  (forall s, P (exec fin s)) ->
  forall s, P (exec (try_catch_finally body handler fin) s).
Proof.
  intros Hfin s.
  destruct (finally_runs_last body handler fin s) as [s1 ->].
  apply Hfin.
Qed.

(** A property that every step of the statement preserves is preserved by
    the statement. *)
Lemma try_catch_finally_preserves (P : S -> Prop) (body : Eff S unit)
    (handler : Err -> Eff S unit) (fin : Eff S unit) :
  (forall s, P s -> P (exec body s)) ->
  (forall e s, P s -> P (exec (handler e) s)) ->
  (forall s, P s -> P (exec fin s)) ->
  forall s, P s -> P (exec (try_catch_finally body handler fin) s).
Proof.
  intros Hb Hh Hf s Hs. unfold exec, try_catch_finally in *.
  specialize (Hb s Hs).
  destruct (body s) as [[a | e] s0]; cbn in Hb.
  - specialize (Hf s0 Hb).
    destruct (fin s0) as [[u | e'] s2]; exact Hf.
  - specialize (Hh e s0 Hb).
    destruct (handler e s0) as [c s1]; cbn in Hh.
    specialize (Hf s1 Hh).
    destruct (fin s1) as [[u | e'] s2]; exact Hf.
Qed.

Lemma bind_preserves {A B : Type} (P : S -> Prop) (m : Eff S A) (k : A -> Eff S B) :
  (forall s, P s -> P (exec m s)) ->
  (forall a s, P s -> P (exec (k a) s)) ->
  forall s, P s -> P (exec (bind m k) s).
Proof.
  intros Hm Hk s Hs. unfold exec, bind in *.
  specialize (Hm s Hs).
  destruct (m s) as [[a | e] s0]; cbn in Hm.
  - apply Hk, Hm.
  - exact Hm.
Qed.

Lemma await_preserves {A : Type} (P : S -> Prop) (p : Settled A) :
  forall s, P s -> P (exec (await p) s).
Proof. intros s Hs. destruct p; exact Hs. Qed.

End EffFacts.

(** ** BacktestPage *)

Module BacktestPageFacts.
Import BacktestPage PageRecords.

(** The run when the awaited promise fulfils: the simulated results and
    statistics are stored and the handler returns. *)
Lemma runBacktest_fulfilled (w : World) (s : State) :
  pending w = Fulfilled tt ->
  runBacktest w s =
    (Normal tt,
     {| startDate := startDate s; endDate := endDate s; loading := false;
        results := sampleResults; stats := sampleStats; console := console s |}).
Proof.
  intros H. unfold runBacktest. rewrite exec_modify_then.
  unfold try_catch_finally, bind. rewrite H. reflexivity.
Qed.

(** The run when the awaited promise rejects: the error is logged, the
    results and statistics stay, and the handler still returns. *)
Lemma runBacktest_rejected (w : World) (s : State) (e : Err) :
  pending w = Rejected e ->
  runBacktest w s =
    (Normal tt,
     {| startDate := startDate s; endDate := endDate s; loading := false;
        results := results s; stats := stats s;
        console := console s ++ [("Backtest failed:", e)] |}).
Proof.
  intros H. unfold runBacktest. rewrite exec_modify_then.
  unfold try_catch_finally, bind. rewrite H. reflexivity.
Qed.

Lemma pending_cases (w : World) :
  pending w = Fulfilled tt \/ exists e, pending w = Rejected e.
Proof.
  destruct (pending w) as [[] | e]; [left; reflexivity | right; exists e; reflexivity].
Qed.

(** The records and statistics a run leaves do not depend on the dates. *)
Lemma runBacktest_output (w : World) (s : State) :
  (results (exec (runBacktest w) s) = sampleResults /\
   stats (exec (runBacktest w) s) = sampleStats /\ pending w = Fulfilled tt)
  \/
  (results (exec (runBacktest w) s) = results s /\
   stats (exec (runBacktest w) s) = stats s /\ exists e, pending w = Rejected e).
Proof.
  unfold exec.
  destruct (pending_cases w) as [H | [e H]].
  - left. rewrite (runBacktest_fulfilled w s H). cbn. auto.
  - right. rewrite (runBacktest_rejected w s e H). cbn. eauto.
Qed.

Lemma handle_results_known (s : State) (ev : Event) :
  results_known s -> results_known (handle s ev).
Proof.
  intros H. destruct ev as [v | v | w]; cbn; try exact H.
  destruct (button_disabled s); [exact H |].
  destruct (runBacktest_output w s) as [[Hr _] | [Hr _]].
  - right. exact Hr.
  - unfold results_known. rewrite Hr. exact H.
Qed.

Lemma session_results_known (evs : list Event) : results_known (session evs).
Proof.
  unfold session.
  assert (G : forall s, results_known s -> results_known (fold_left handle evs s)).
  { induction evs as [| ev evs IH]; intros s Hs; cbn.
    - exact Hs.
    - apply IH, handle_results_known, Hs. }
  apply G. left. reflexivity.
Qed.

(** C5: running the same backtest twice gives the same BacktestResult.
    A second run from the state the first one left stores the same
    records and statistics again; and two runs whose awaited call
    fulfils, started with the same dates from any two states of the page,
    end with the same records and the same statistics. *)
Theorem runBacktest_twice_same_result (w : World) (s : State) :
  (results (exec (runBacktest w) (exec (runBacktest w) s))
     = results (exec (runBacktest w) s) /\
   stats (exec (runBacktest w) (exec (runBacktest w) s))
     = stats (exec (runBacktest w) s))
  /\
  (forall s' : State,
     pending w = Fulfilled tt ->
     startDate s' = startDate s -> endDate s' = endDate s ->
     results (exec (runBacktest w) s') = results (exec (runBacktest w) s) /\
     stats (exec (runBacktest w) s') = stats (exec (runBacktest w) s)).
Proof.
  split.
  - destruct (runBacktest_output w (exec (runBacktest w) s))
      as [[Hr [Hs Hp]] | [Hr [Hs _]]].
    + destruct (runBacktest_output w s) as [[Hr' [Hs' _]] | [_ [_ [e He]]]].
      * rewrite Hr, Hs, Hr', Hs'. split; reflexivity.
      * rewrite Hp in He. discriminate.
    + split; assumption.
  - intros s' Hp _ _. unfold exec.
    rewrite (runBacktest_fulfilled w s Hp), (runBacktest_fulfilled w s' Hp).
    split; reflexivity.
Qed.

Lemma runBacktest_twice_same_result_witness :
  let w := {| pending := Fulfilled tt |} in
  let s := setEndDate "2024-03-01" (setStartDate "2024-01-01" init) in
  let s' := setResults sampleResults s in
  pending w = Fulfilled tt /\
  startDate s' = startDate s /\ endDate s' = endDate s /\
  results (exec (runBacktest w) s') = results (exec (runBacktest w) s) /\
  stats (exec (runBacktest w) s') = stats (exec (runBacktest w) s).
Proof.
  intros w s s'.
  split; [reflexivity |]. split; [reflexivity |]. split; [reflexivity |].
  apply (proj2 (runBacktest_twice_same_result w s) s'); reflexivity.
Defined.

(** C8: the output of a run does not depend on the selected dates.
    From the same page state, two runs with any two pairs of start and
    end dates leave the same records, statistics, loading flag and
    console; the dates only enable the button, which is disabled exactly
    when the page is loading or one of the dates is empty. *)
Theorem runBacktest_ignores_dates (w : World) (s : State)
    (start1 end1 start2 end2 : string) :
  let s1 := exec (runBacktest w) (setEndDate end1 (setStartDate start1 s)) in
  let s2 := exec (runBacktest w) (setEndDate end2 (setStartDate start2 s)) in
  (results s1 = results s2 /\ stats s1 = stats s2 /\
   loading s1 = loading s2 /\ console s1 = console s2)
  /\
  (button_disabled s = false <->
   loading s = false /\ startDate s <> "" /\ endDate s <> "").
Proof.
  cbn zeta. split.
  - unfold exec.
    destruct (pending_cases w) as [H | [e H]].
    + rewrite !(runBacktest_fulfilled w _ H). cbn. auto.
    + rewrite !(runBacktest_rejected w _ e H). cbn. auto.
  - unfold button_disabled.
    destruct (loading s), (startDate s) as [| c1 t1], (endDate s) as [| c2 t2];
      cbn; split; try discriminate; try tauto;
      repeat split; try reflexivity; discriminate.
Qed.

(** C7: the TradeRecord sequence is strictly increasing in date, with no
    duplicate dates: in every state a session of the page reaches, the
    dates of the results ascend strictly as calendar days and as strings,
    and no date occurs twice. *)
Theorem results_dates_strictly_increasing (evs : list Event) :
  ascending date_ltb (dates (results (session evs))) = true /\
  ascending String.ltb (dates (results (session evs))) = true /\
  NoDup (dates (results (session evs))).
Proof.
  destruct (session_results_known evs) as [H | H]; rewrite H.
  - cbn. repeat split; constructor.
  - split; [vm_compute; reflexivity |]. split; [vm_compute; reflexivity |].
    cbn. repeat constructor; cbn; intuition discriminate.
Qed.

(** The page does reach the simulated records. *)
Example session_with_results :
  results (session [ChangeStartDate "2024-01-01"; ChangeEndDate "2024-03-01";
                    ClickRun {| pending := Fulfilled tt |}]) = sampleResults.
Proof. reflexivity. Qed.

(** The simulated records never imply a negative position, and replayed
    from an initial cash of 24881 they never overdraw it. *)
Lemma sample_records_never_negative (n : nat) :
  0 <= implied_position (firstn n sampleResults) /\
  0 <= cash (replay 24881 (firstn n sampleResults)).
Proof.
  do 5 (destruct n as [| n]; [split; vm_compute; discriminate |]).
  rewrite firstn_all2 by (cbn; lia).
  split; vm_compute; discriminate.
Qed.

(** C4, as stated, fails: with no market data for BTC over the requested
    range, and the awaited timer fulfilled as it always is, the first run
    of the page returns normally and stores four TradeRecords. *)
Lemma runBacktest_without_market_data :
  let adapter : Adapter := fun _ _ _ => None in
  let w := {| pending := Fulfilled tt |} in
  let s := setEndDate "2024-03-01" (setStartDate "2024-01-01" init) in
  (adapter "BTC" (startDate s) (endDate s) = None /\
   results s = [] /\
   completion (runBacktest w) s = Normal tt /\
   results (exec (runBacktest w) s) = sampleResults /\
   List.length (results (exec (runBacktest w) s)) = 4%nat)
  /\ ~ fails_without_market_data.
Proof.
  intros adapter w s. split.
  - repeat split.
  - intros claim.
    destruct (claim adapter "BTC" w s eq_refl eq_refl eq_refl) as [_ H].
    discriminate H.
Qed.

(** C4, amended: the run consults no market data and reports no failure
    to its caller; every invocation completes normally.  When the awaited
    call is rejected the error is logged to the console and the results
    and statistics keep the values they had; otherwise the results become
    the simulated TradeRecords and the statistics the simulated summary. *)
Theorem runBacktest_outcome (w : World) (s : State) :
  completion (runBacktest w) s = Normal tt /\
  match pending w with
  | Fulfilled _ =>
      results (exec (runBacktest w) s) = sampleResults /\
      stats (exec (runBacktest w) s) = sampleStats /\
      console (exec (runBacktest w) s) = console s
  | Rejected e =>
      results (exec (runBacktest w) s) = results s /\
      stats (exec (runBacktest w) s) = stats s /\
      console (exec (runBacktest w) s) = (console s ++ [("Backtest failed:", e)])%list
  end.
Proof.
  unfold completion, exec.
  destruct (pending_cases w) as [H | [e H]].
  - rewrite (runBacktest_fulfilled w s H), H. cbn. auto.
  - rewrite (runBacktest_rejected w s e H), H. cbn. auto.
Qed.

(** C2, as stated, fails: a record of the results has five properties,
    so it cannot carry the eight fields of the specification. *)
Lemma sample_record_lacks_spec_fields :
  let r := {| date := "2024-01-01"; action := "买入"; price := 42150.23;
              amount := 0.5; value := 21075.115 |} in
  In r (results (exec (runBacktest {| pending := Fulfilled tt |}) init)) /\
  keys (to_object r) = ["date"; "action"; "price"; "amount"; "value"] /\
  ~ carries_spec_fields (to_object r).
Proof.
  intros r. split; [left; reflexivity |]. split; [reflexivity |].
  intros [props [Hnd [Hlen Hincl]]].
  pose proof (NoDup_incl_length Hnd Hincl) as Hle.
  rewrite Hlen in Hle. cbn in Hle. lia.
Qed.

(** C2, amended: every TradeRecord carries exactly the five fields date
    and action, which are strings, and price, amount and value, which are
    numbers; they are the fields the records table reads, one column
    each, and they leave no room for the eight fields of the
    specification. *)
Theorem TradeRecord_fields (r : TradeRecord) :
  shape (to_object r) =
    [ ("date", TString); ("action", TString); ("price", TNumber);
      ("amount", TNumber); ("value", TNumber) ] /\
  map snd table_columns = keys (to_object r) /\
  ~ carries_spec_fields (to_object r).
Proof.
  split; [reflexivity |]. split; [reflexivity |].
  intros [props [Hnd [Hlen Hincl]]].
  pose proof (NoDup_incl_length Hnd Hincl) as Hle.
  rewrite Hlen in Hle. cbn in Hle. lia.
Qed.

(** The trade value of every simulated record is price x amount. *)
Lemma sample_values (r : TradeRecord) :
  In r sampleResults -> value r == price r * amount r.
Proof.
  intros H. cbn in H.
  repeat (destruct H as [<- | H]; [reflexivity |]). contradiction.
Qed.






End BacktestPageFacts.

(** ** ConfigPage *)

Module ConfigPageFacts.
Import ConfigPage.

(** A call of [toast] leaves the keys and the loading flag alone and adds
    at most the toast it was given. *)
Lemma toast_effect (w : World) (t : Toast) (s : State) :
  apiKeys (exec (toast w t) s) = apiKeys s /\
  loading (exec (toast w t) s) = loading s /\
  (toasts (exec (toast w t) s) = toasts s \/
   toasts (exec (toast w t) s) = toasts s ++ [t])%list.
Proof.
  unfold exec, toast. destruct (toast_failure w t); cbn; auto.
Qed.

Lemma testConnection_guarded (w : World) :
  testConnection w =
    guarded w (connection_test w)
      {| title := "连接测试成功"; description := "所有API密钥验证通过";
         destructive := false |}
      {| title := "连接测试失败"; description := "请检查API密钥是否正确";
         destructive := true |}.
Proof. reflexivity. Qed.

Lemma saveConfig_guarded (w : World) :
  saveConfig w =
    guarded w (config_save w)
      {| title := "配置保存成功"; description := "API密钥已更新";
         destructive := false |}
      {| title := "配置保存失败"; description := "请稍后重试";
         destructive := true |}.
Proof. reflexivity. Qed.

(** The state such a handler leaves: the keys as they were, the flag
    down, and the toasts extended by nothing or by one of its two toasts. *)
Lemma guarded_effect (w : World) (p : Settled unit) (good bad : Toast) (s : State) :
  exists shown : list Toast,
    exec (guarded w p good bad) s =
      {| loading := false; apiKeys := apiKeys s; toasts := toasts s ++ shown |}
    /\ (shown = [] \/ shown = [good] \/ shown = [bad]).
Proof.
  unfold guarded, exec. rewrite exec_modify_then.
  unfold try_catch_finally, bind, await, toast, modify, ret, throw.
  destruct p as [[] | e].
  - destruct (toast_failure w good) as [e1 |].
    + destruct (toast_failure w bad) as [e2 |]; cbn.
      * exists []. rewrite app_nil_r. auto.
      * exists [bad]. auto.
    + cbn. exists [good]. auto.
  - destruct (toast_failure w bad) as [e2 |]; cbn.
    + exists []. rewrite app_nil_r. auto.
    + exists [bad]. auto.
Qed.

(** C10: testConnection and saveConfig leave the apiKeys unchanged; all
    they change is the loading flag and the toasts, to which they add at
    most one.  handleInputChange sets the key it is given to the value
    typed and leaves the other two keys, the loading flag and the toasts
    unchanged. *)
Theorem api_keys_frame (w : World) (s : State) :
  (exists shown,
     exec (testConnection w) s =
       {| loading := false; apiKeys := apiKeys s; toasts := toasts s ++ shown |}
     /\ (List.length shown <= 1)%nat)
  /\
  (exists shown,
     exec (saveConfig w) s =
       {| loading := false; apiKeys := apiKeys s; toasts := toasts s ++ shown |}
     /\ (List.length shown <= 1)%nat)
  /\
  (forall (key : ApiKey) (v : string),
     get key (apiKeys (handleInputChange key v s)) = v /\
     (forall other : ApiKey,
        other <> key ->
        get other (apiKeys (handleInputChange key v s)) = get other (apiKeys s)) /\
     loading (handleInputChange key v s) = loading s /\
     toasts (handleInputChange key v s) = toasts s).
Proof.
  split; [| split].
  - rewrite testConnection_guarded.
    match goal with
    | |- context [guarded w ?p ?good ?bad] =>
        destruct (guarded_effect w p good bad s) as [shown [E H]]
    end.
    exists shown. split; [exact E |].
    destruct H as [-> | [-> | ->]]; cbn; lia.
  - rewrite saveConfig_guarded.
    match goal with
    | |- context [guarded w ?p ?good ?bad] =>
        destruct (guarded_effect w p good bad s) as [shown [E H]]
    end.
    exists shown. split; [exact E |].
    destruct H as [-> | [-> | ->]]; cbn; lia.
  - intros key v. split; [destruct key; reflexivity |].
    split; [| split; reflexivity].
    intros other Hne. destruct key, other; try reflexivity; congruence.
Qed.

Lemma api_keys_frame_witness :
  let s := handleInputChange Anthropic "sk-ant-1" (handleInputChange Openai "sk-1" init) in
  Coinmarketcap <> Openai /\
  get Coinmarketcap (apiKeys (handleInputChange Openai "sk-2" s))
    = get Coinmarketcap (apiKeys s) /\
  get Openai (apiKeys (handleInputChange Openai "sk-2" s)) = "sk-2".
Proof.
  intros s.
  assert (Hne : Coinmarketcap <> Openai) by discriminate.
  split; [exact Hne |].
  pose proof (api_keys_frame {| connection_test := Fulfilled tt;
                                 config_save := Fulfilled tt;
                                 toast_failure := fun _ => None |} s) as H.
  destruct H as [_ [_ H]].
  destruct (H Openai "sk-2") as [Hset [Hother _]].
  split; [apply (Hother Coinmarketcap Hne) | exact Hset].
Defined.

End ConfigPageFacts.

(** ** The loading flag of the four handlers *)

Section LoadingFlag.

(** A handler of the form
    [setLoading(true); try { ... } catch { ... } finally { setLoading(false) }]
    ends with whatever its [finally] block establishes. *)
Lemma flag_dropped {S : Type} (flag : S -> bool) (raise drop : S -> S)
    (body : Eff S unit) (handler : Err -> Eff S unit) :
  (forall s, flag (drop s) = false) ->
  forall s,
    flag (exec (modify raise ;; try_catch_finally body handler (modify drop))%eff s)
    = false.
Proof.
  intros Hdrop s. unfold exec. rewrite exec_modify_then.
  apply (finally_establishes (fun st => flag st = false)).
  intros s0. apply Hdrop.
Qed.

(** C9: after runBacktest, refreshAnalysis, testConnection or saveConfig
    completes, the loading flag is false, whatever the state it started
    in and whatever the environment did: whether the body ran to its end
    or threw, and whether or not the handler of the [catch] branch threw
    in turn. *)
Theorem loading_false_after_handlers
    (wb : BacktestPage.World) (sb : BacktestPage.State)
    (wa : AnalysisPage.World) (sa : AnalysisPage.State)
    (wc : ConfigPage.World) (sc : ConfigPage.State) :
  BacktestPage.loading (exec (BacktestPage.runBacktest wb) sb) = false /\
  AnalysisPage.loading (exec (AnalysisPage.refreshAnalysis wa) sa) = false /\
  ConfigPage.loading (exec (ConfigPage.testConnection wc) sc) = false /\
  ConfigPage.loading (exec (ConfigPage.saveConfig wc) sc) = false.
Proof.
  repeat split.
  - apply (flag_dropped BacktestPage.loading). reflexivity.
  - apply (flag_dropped AnalysisPage.loading). reflexivity.
  - apply (flag_dropped ConfigPage.loading). reflexivity.
  - apply (flag_dropped ConfigPage.loading). reflexivity.
Qed.

(** The error paths are real.  A server that answers 500: the body of
    refreshAnalysis throws, the handler logs the error and shows the
    toast, and the call returns with the flag down. *)
Example refreshAnalysis_http_error :
  let w := {| AnalysisPage.fetch := fun _ =>
                Fulfilled {| AnalysisPage.ok := false; AnalysisPage.status := 500;
                             AnalysisPage.json := Fulfilled AnalysisPage.JNull |};
              AnalysisPage.toast_failure := fun _ => None |} in
  let s := exec (AnalysisPage.refreshAnalysis w) AnalysisPage.init in
  completion (AnalysisPage.refreshAnalysis w) AnalysisPage.init = Normal tt /\
  AnalysisPage.console s = [("Failed to refresh analysis:", "HTTP error! status: 500")] /\
  List.length (AnalysisPage.toasts s) = 1%nat /\
  AnalysisPage.agents s = AnalysisPage.agents AnalysisPage.init /\
  AnalysisPage.loading s = false.
Proof. repeat split. Qed.

(** When the toast of the [catch] branch throws as well, the exception
    leaves refreshAnalysis, and the flag is down all the same. *)
Example refreshAnalysis_handler_throws :
  let w := {| AnalysisPage.fetch := fun _ => Rejected "TypeError: Failed to fetch";
              AnalysisPage.toast_failure := fun _ => Some "toast is not a function" |} in
  completion (AnalysisPage.refreshAnalysis w) AnalysisPage.init
    = Thrown "toast is not a function" /\
  AnalysisPage.loading (exec (AnalysisPage.refreshAnalysis w) AnalysisPage.init) = false.
Proof. repeat split. Qed.

(** A server that answers both requests: the market data and the agents
    are stored. *)
Example refreshAnalysis_success :
  let payload := AnalysisPage.JObj [("agents", AnalysisPage.JArr [])] in
  let w := {| AnalysisPage.fetch := fun _ =>
                Fulfilled {| AnalysisPage.ok := true; AnalysisPage.status := 200;
                             AnalysisPage.json := Fulfilled payload |};
              AnalysisPage.toast_failure := fun _ => None |} in
  let s := exec (AnalysisPage.refreshAnalysis w) AnalysisPage.init in
  completion (AnalysisPage.refreshAnalysis w) AnalysisPage.init = Normal tt /\
  AnalysisPage.marketData s = payload /\
  AnalysisPage.agents s = AnalysisPage.JArr [] /\
  AnalysisPage.loading s = false.
Proof. repeat split. Qed.

End LoadingFlag.

(** ** The backtest engine *)

Module BacktestEngineFacts.
Import BacktestEngine.

Local Open Scope Q_scope.

(** What [execute] writes into the record. *)
Lemma execute_record (policy : OverdrawPolicy) (st : PortfolioState)
    (bar : Bar) (dec : Decision) :
  let st' := fst (execute policy st bar dec) in
  let r := snd (execute policy st bar dec) in
  date r = bar_date bar /\ price r = bar_close bar /\
  action r = d_action dec /\
  quantity r = executed_quantity policy st (bar_close bar) dec /\
  cash_after r = cash st' /\
  quantity_after r = quantity_held (position st') /\
  valuation_date st' = bar_date bar /\
  total_equity r = cash_after r + quantity_after r * bar_close bar.
Proof.
  cbn zeta. unfold execute. cbn [fst snd date price action quantity cash_after
    quantity_after total_equity].
  repeat split. unfold settle. destruct (d_action dec); reflexivity.
Qed.

Lemma not_Qle_bool (x y : Q) : Qle_bool x y = false -> y < x.
Proof.
  intros H. apply Qnot_le_lt. intros Hle.
  apply Qle_bool_iff in Hle. congruence.
Qed.

(** The quantity executed is never negative. *)
Lemma executed_quantity_nonneg (policy : OverdrawPolicy) (st : PortfolioState)
    (close : Q) (dec : Decision) :
  0 <= cash st -> 0 <= quantity_held (position st) ->
  0 <= close -> 0 <= d_quantity dec ->
  0 <= executed_quantity policy st close dec.
Proof.
  intros Hcash Hheld Hclose Hq. unfold executed_quantity.
  destruct (d_action dec).
  - destruct (Qle_bool (d_quantity dec * close) (cash st)) eqn:E; [exact Hq |].
    destruct policy; [| lra].
    apply not_Qle_bool in E.
    assert (Hpos : 0 < close).
    { destruct (Qlt_le_dec 0 close) as [H | H]; [exact H |].
      assert (Hz : close == 0) by lra. rewrite Hz in E. lra. }
    apply Qle_shift_div_l; [exact Hpos | lra].
  - destruct (Qle_bool (d_quantity dec) (quantity_held (position st))); assumption.
  - lra.
Qed.

(** Executing a decision never overdraws the cash and never oversells
    the position. *)
Lemma execute_nonneg (policy : OverdrawPolicy) (st : PortfolioState)
    (bar : Bar) (dec : Decision) :
  0 <= cash st -> 0 <= quantity_held (position st) ->
  0 <= bar_close bar -> 0 <= d_quantity dec ->
  0 <= cash (fst (execute policy st bar dec)) /\
  0 <= quantity_held (position (fst (execute policy st bar dec))).
Proof.
  intros Hcash Hheld Hclose Hq.
  pose proof (executed_quantity_nonneg policy st (bar_close bar) dec
                Hcash Hheld Hclose Hq) as Hex.
  unfold execute. cbn [fst]. unfold settle.
  unfold executed_quantity in *.
  destruct (d_action dec); cbn [cash position quantity_held].
  - destruct (Qle_bool (d_quantity dec * bar_close bar) (cash st)) eqn:E.
    + apply Qle_bool_iff in E. split; lra.
    + destruct policy.
      * apply not_Qle_bool in E.
        assert (Hnz : ~ bar_close bar == 0).
        { intros Hz. rewrite Hz in E. lra. }
        split; [| lra].
        assert (Heq : cash st / bar_close bar * bar_close bar == cash st)
          by (field; exact Hnz).
        rewrite Heq. lra.
      * split; lra.
  - assert (Hprod : 0 <= (if Qle_bool (d_quantity dec) (quantity_held (position st))
                          then d_quantity dec else quantity_held (position st))
                         * bar_close bar)
      by (apply Qmult_le_0_compat; assumption).
    split; [lra |].
    destruct (Qle_bool (d_quantity dec) (quantity_held (position st))) eqn:E.
    + apply Qle_bool_iff in E. lra.
    + lra.
  - split; assumption.
Qed.

(** The resulting quantity is the quantity held before plus what the
    record adds. *)
Lemma execute_position (policy : OverdrawPolicy) (st : PortfolioState)
    (bar : Bar) (dec : Decision) :
  quantity_held (position (fst (execute policy st bar dec)))
  == quantity_held (position st) + signed_quantity (snd (execute policy st bar dec)).
Proof.
  unfold execute, signed_quantity, settle. cbn [fst snd action quantity].
  destruct (d_action dec); cbn [position quantity_held]; ring.
Qed.

(** One step of the loop, with the state and the record named. *)
Lemma simulate_step (cfg : Config) (seen rest : Series) (bar : Bar)
    (st : PortfolioState) :
  let context := (seen ++ [bar])%list in
  let dec := pipeline cfg context st in
  let st' := fst (execute (on_overdraw cfg) st bar dec) in
  let record := snd (execute (on_overdraw cfg) st bar dec) in
  simulate cfg seen (bar :: rest) st =
    if record_holds cfg || negb (is_hold (action record))
    then record :: simulate cfg context rest st'
    else simulate cfg context rest st'.
Proof. reflexivity. Qed.

(** Every record of the loop was made from a bar of the series, at its
    date and closing price, and its total equity is the resulting cash
    plus the resulting quantity at that price. *)
Lemma simulate_records (cfg : Config) (todo : Series) :
  forall (seen : Series) (st : PortfolioState) (r : TradeRecord),
    In r (simulate cfg seen todo st) ->
    exists bar, In bar todo /\ date r = bar_date bar /\ price r = bar_close bar /\
                total_equity r = cash_after r + quantity_after r * bar_close bar.
Proof.
  induction todo as [| bar rest IH]; intros seen st r Hin.
  - contradiction.
  - rewrite simulate_step in Hin. cbn zeta in Hin.
    set (dec := pipeline cfg (seen ++ [bar])%list st) in *.
    destruct (execute_record (on_overdraw cfg) st bar dec)
      as [Hd [Hp [_ [_ [_ [_ [_ He]]]]]]].
    destruct (record_holds cfg || negb (is_hold (action (snd (execute (on_overdraw cfg) st bar dec))))).
    + destruct Hin as [<- | Hin].
      * exists bar. split; [left; reflexivity | auto].
      * destruct (IH _ _ _ Hin) as [b [Hb H]]. exists b. split; [right; exact Hb | exact H].
    + destruct (IH _ _ _ Hin) as [b [Hb H]]. exists b. split; [right; exact Hb | exact H].
Qed.

(** In a series without duplicate dates the closing price of a bar's
    date is the closing price of that bar. *)
Lemma close_on_bar (series : Series) (bar : Bar) :
  NoDup (map bar_date series) -> In bar series ->
  close_on series (bar_date bar) = Some (bar_close bar).
Proof.
  unfold close_on.
  induction series as [| b rest IH]; intros Hnd Hin; [contradiction |].
  cbn [map] in Hnd. inversion Hnd as [| d ds Hnotin Hnd']; subst.
  cbn [find]. destruct Hin as [-> | Hin].
  - rewrite String.eqb_refl. reflexivity.
  - destruct (String.eqb (bar_date b) (bar_date bar)) eqn:E.
    + apply String.eqb_eq in E. exfalso. apply Hnotin. rewrite E.
      apply in_map. exact Hin.
    + apply IH; assumption.
Qed.

Lemma run_backtest_completed (adapter : Adapter) (symbol start_date end_date : string)
    (starting_cash : Q) (cfg : Config) (records : list TradeRecord) :
  run_backtest adapter symbol start_date end_date starting_cash cfg = Completed records ->
  exists series,
    adapter symbol start_date end_date = Some series /\
    records = simulate cfg [] series (initial starting_cash start_date).
Proof.
  unfold run_backtest. intros H.
  destruct (adapter symbol start_date end_date) as [[| b rest] |]; try discriminate.
  injection H as <-. exists (b :: rest). split; reflexivity.
Qed.

(** C1: the accounting balance of every TradeRecord of a run.  When the
    adapter supplies a series without duplicate dates and the run
    completes, every record has cash after the trade plus quantity held
    after the trade times the closing price of its date equal to its
    total equity. *)
Theorem accounting_balance (adapter : Adapter) (symbol start_date end_date : string)
    (starting_cash : Q) (cfg : Config) (series : Series)
    (records : list TradeRecord) :
  adapter symbol start_date end_date = Some series ->
  NoDup (map bar_date series) ->
  run_backtest adapter symbol start_date end_date starting_cash cfg = Completed records ->
  forall r, In r records ->
    exists close, close_on series (date r) = Some close /\
                  cash_after r + quantity_after r * close == total_equity r.
Proof.
  intros Hseries Hnd Hrun r Hin.
  destruct (run_backtest_completed _ _ _ _ _ _ _ Hrun) as [series' [Hs' ->]].
  rewrite Hseries in Hs'. injection Hs' as <-.
  destruct (simulate_records _ _ _ _ _ Hin) as [bar [Hbar [Hd [_ He]]]].
  exists (bar_close bar). split.
  - rewrite Hd. apply close_on_bar; assumption.
  - rewrite He. reflexivity.
Qed.

(** The run the README prints is the run of the engine on the printed
    prices and decisions with a starting cash of 100000. *)
Lemma readme_run :
  exists records,
    run_backtest readme_adapter "BTC" "2024-01-01" "2024-01-04" 100000 readme_config
      = Completed records /\
    all_agree records readme_rows = true.
Proof. eexists. split; [reflexivity | vm_compute; reflexivity]. Qed.

(** Every line the README prints balances: cash + crypto x price is the
    total value. *)
Lemma readme_rows_balance (row : Row) :
  In row readme_rows ->
  row_cash row + row_crypto row * row_price row == row_total_value row.
Proof.
  intros H. cbn in H.
  repeat (destruct H as [<- | H]; [reflexivity |]). contradiction.
Qed.

Lemma accounting_balance_witness :
  let records := simulate readme_config [] readme_series (initial 100000 "2024-01-01") in
  readme_adapter "BTC" "2024-01-01" "2024-01-04" = Some readme_series /\
  NoDup (map bar_date readme_series) /\
  run_backtest readme_adapter "BTC" "2024-01-01" "2024-01-04" 100000 readme_config
    = Completed records /\
  forall r, In r records ->
    exists close, close_on readme_series (date r) = Some close /\
                  cash_after r + quantity_after r * close == total_equity r.
Proof.
  intros records.
  assert (Hnd : NoDup (map bar_date readme_series)).
  { cbn. repeat constructor; cbn; intuition discriminate. }
  split; [reflexivity |]. split; [exact Hnd |]. split; [reflexivity |].
  apply (accounting_balance readme_adapter "BTC" "2024-01-01" "2024-01-04"
           100000 readme_config readme_series records eq_refl Hnd eq_refl).
Defined.

Lemma implied_position_last (pre : list TradeRecord) (r : TradeRecord) :
  implied_position (pre ++ [r]) == implied_position pre + signed_quantity r.
Proof.
  induction pre as [| p pre IH]; cbn [app implied_position].
  - ring.
  - rewrite IH. ring.
Qed.

(** A sell that asks for more than is held sells what is held and leaves
    nothing. *)
Lemma oversell_clamped (policy : OverdrawPolicy) (st : PortfolioState)
    (bar : Bar) (dec : Decision) :
  d_action dec = Sell ->
  quantity_held (position st) < d_quantity dec ->
  quantity (snd (execute policy st bar dec)) = quantity_held (position st) /\
  quantity_after (snd (execute policy st bar dec)) == 0.
Proof.
  intros Hsell Hmore.
  unfold execute, executed_quantity, settle. rewrite Hsell.
  cbn [snd quantity quantity_after position quantity_held].
  destruct (Qle_bool (d_quantity dec) (quantity_held (position st))) eqn:E.
  - apply Qle_bool_iff in E. lra.
  - split; [reflexivity | ring].
Qed.

(** The invariant of the loop: from a state with non-negative cash and
    position, the position implied by the records up to any record is
    the resulting quantity of that record less the quantity held at the
    start, and neither the resulting quantity nor the resulting cash is
    negative. *)
Lemma simulate_invariant (cfg : Config) :
  (forall context st, 0 <= d_quantity (pipeline cfg context st)) ->
  forall (todo seen : Series) (st : PortfolioState),
    0 <= cash st -> 0 <= quantity_held (position st) ->
    (forall b, In b todo -> 0 <= bar_close b) ->
    forall pre r post,
      simulate cfg seen todo st = (pre ++ r :: post)%list ->
      quantity_held (position st) + implied_position (pre ++ [r]) == quantity_after r /\
      0 <= quantity_after r /\ 0 <= cash_after r.
Proof.
  intros Hpipe.
  induction todo as [| bar rest IH]; intros seen st Hcash Hheld Hclose pre r post Hsim.
  - destruct pre; discriminate Hsim.
  - rewrite simulate_step in Hsim. cbn zeta in Hsim.
    set (dec := pipeline cfg (seen ++ [bar])%list st) in *.
    assert (Hq : 0 <= d_quantity dec) by apply Hpipe.
    assert (Hbar : 0 <= bar_close bar) by (apply Hclose; left; reflexivity).
    destruct (execute_nonneg (on_overdraw cfg) st bar dec Hcash Hheld Hbar Hq)
      as [Hcash' Hheld'].
    pose proof (execute_position (on_overdraw cfg) st bar dec) as Hpos.
    destruct (execute_record (on_overdraw cfg) st bar dec)
      as [_ [_ [_ [_ [Hca [Hqa _]]]]]].
    set (st' := fst (execute (on_overdraw cfg) st bar dec)) in *.
    set (rec := snd (execute (on_overdraw cfg) st bar dec)) in *.
    assert (Hrest : forall b, In b rest -> 0 <= bar_close b)
      by (intros b Hb; apply Hclose; right; exact Hb).
    destruct (record_holds cfg || negb (is_hold (action rec))) eqn:Hkeep.
    + destruct pre as [| p pre].
      * cbn [app] in Hsim. injection Hsim as Hr _. subst r.
        cbn [app implied_position]. rewrite Hqa, Hca.
        split; [rewrite Hpos; ring | split; assumption].
      * cbn [app] in Hsim. injection Hsim as Hp Htail. subst p.
        destruct (IH _ _ Hcash' Hheld' Hrest _ _ _ Htail) as [Himp [Hqn Hcn]].
        split; [| split; assumption].
        rewrite <- Himp. cbn [app implied_position]. rewrite Hpos. ring.
    + destruct (IH _ _ Hcash' Hheld' Hrest _ _ _ Hsim) as [Himp [Hqn Hcn]].
      split; [| split; assumption].
      rewrite <- Himp, Hpos.
      apply orb_false_iff in Hkeep. destruct Hkeep as [_ Hhold].
      apply negb_false_iff in Hhold.
      unfold signed_quantity. destruct (action rec); try discriminate Hhold. ring.
Qed.

(** C6: positions and cash never go negative.  A sell decision that asks
    for more than the held quantity is executed for the held quantity
    and leaves a position of exactly 0; and in a run with non-negative
    starting cash, closing prices and decision quantities, the cumulative
    position implied by the records up to each record -- buy quantities
    minus sell quantities -- is the resulting quantity of that record and
    is never negative, and the resulting cash of each record is never
    negative. *)
Theorem position_and_cash_never_negative
    (adapter : Adapter) (symbol start_date end_date : string)
    (starting_cash : Q) (cfg : Config) (series : Series)
    (records : list TradeRecord) :
  0 <= starting_cash ->
  adapter symbol start_date end_date = Some series ->
  (forall b, In b series -> 0 <= bar_close b) ->
  (forall context st, 0 <= d_quantity (pipeline cfg context st)) ->
  run_backtest adapter symbol start_date end_date starting_cash cfg = Completed records ->
  (forall (st : PortfolioState) (bar : Bar) (dec : Decision),
     d_action dec = Sell ->
     quantity_held (position st) < d_quantity dec ->
     quantity (snd (execute (on_overdraw cfg) st bar dec)) = quantity_held (position st) /\
     quantity_after (snd (execute (on_overdraw cfg) st bar dec)) == 0)
  /\
  (forall pre r post,
     records = (pre ++ r :: post)%list ->
     implied_position (pre ++ [r]) == quantity_after r /\
     0 <= implied_position (pre ++ [r]) /\
     0 <= quantity_after r /\
     0 <= cash_after r).
Proof.
  intros Hcash Hseries Hclose Hpipe Hrun. split.
  - intros st bar dec. apply oversell_clamped.
  - intros pre r post Hrec.
    destruct (run_backtest_completed _ _ _ _ _ _ _ Hrun) as [series' [Hs' Hsim]].
    rewrite Hseries in Hs'. injection Hs' as <-.
    rewrite Hrec in Hsim. symmetry in Hsim.
    assert (Hheld0 : 0 <= quantity_held (position (initial starting_cash start_date)))
      by (cbn; lra).
    destruct (simulate_invariant cfg Hpipe series [] (initial starting_cash start_date)
                Hcash Hheld0 Hclose pre r post Hsim) as [Himp [Hqn Hcn]].
    cbn [initial position quantity_held] in Himp.
    assert (E : implied_position (pre ++ [r]) == quantity_after r)
      by (rewrite <- Himp; ring).
    split; [exact E |]. split; [rewrite E; exact Hqn |]. split; assumption.
Qed.

(** A scripted pipeline asks for the quantities of its script. *)
Lemma scripted_nonneg (script : list (string * Decision)) :
  (forall e, In e script -> 0 <= d_quantity (snd e)) ->
  forall context st, 0 <= d_quantity (scripted script context st).
Proof.
  intros Hscript context st. unfold scripted.
  destruct (rev context) as [| bar rest]; [cbn; lra |].
  destruct (find (fun e => String.eqb (fst e) (bar_date bar)) script) as [e |] eqn:E.
  - apply find_some in E. apply Hscript, E.
  - cbn. lra.
Qed.

Lemma oversell_script_nonneg (e : string * Decision) :
  In e oversell_script -> 0 <= d_quantity (snd e).
Proof.
  intros H. cbn in H.
  repeat (destruct H as [<- | H]; [cbn; lra |]). contradiction.
Qed.

(** Scenario B: the sell of 2 with 0.5 held is recorded as a sell of 0.5
    and leaves a position of 0; the buy of 10 at 40000 with 101500 of
    cash is clamped to the cash and leaves 0 of it. *)
Example oversell_run :
  match simulate (oversell_config ClampBuy) [] oversell_series (initial 100000 "2024-01-01") with
  | [r1; r2; r3] =>
      quantity r1 == 0.5 /\ quantity_after r1 == 0.5 /\ cash_after r1 == 79000 /\
      quantity r2 == 0.5 /\ quantity_after r2 == 0 /\ cash_after r2 == 101500 /\
      quantity r3 == 2.5375 /\ quantity_after r3 == 2.5375 /\ cash_after r3 == 0 /\
      total_equity r3 == 101500
  | _ => False
  end.
Proof. vm_compute. repeat split. Qed.

Lemma position_and_cash_never_negative_witness :
  let records :=
    simulate (oversell_config ClampBuy) [] oversell_series (initial 100000 "2024-01-01") in
  0 <= 100000 /\
  oversell_adapter "BTC" "2024-01-01" "2024-01-03" = Some oversell_series /\
  (forall b, In b oversell_series -> 0 <= bar_close b) /\
  run_backtest oversell_adapter "BTC" "2024-01-01" "2024-01-03" 100000
    (oversell_config ClampBuy) = Completed records /\
  forall pre r post,
    records = (pre ++ r :: post)%list ->
    implied_position (pre ++ [r]) == quantity_after r /\
    0 <= implied_position (pre ++ [r]) /\
    0 <= quantity_after r /\
    0 <= cash_after r.
Proof.
  intros records.
  assert (Hcash : 0 <= 100000) by (vm_compute; discriminate).
  assert (Hclose : forall b, In b oversell_series -> 0 <= bar_close b).
  { intros b H. cbn in H.
    repeat (destruct H as [<- | H]; [vm_compute; discriminate |]). contradiction. }
  split; [exact Hcash |]. split; [reflexivity |]. split; [exact Hclose |].
  split; [reflexivity |].
  apply (position_and_cash_never_negative oversell_adapter "BTC" "2024-01-01"
           "2024-01-03" 100000 (oversell_config ClampBuy) oversell_series records
           Hcash eq_refl Hclose (scripted_nonneg oversell_script oversell_script_nonneg)
           eq_refl).
Defined.

End BacktestEngineFacts.

(** ** AnalysisPage: the list of cryptocurrencies *)

Module AnalysisPageFacts.
Import AnalysisPage.

Lemma toast_keeps_loading (w : World) (t : Toast) (b : bool) (s : State) :
  loading s = b -> loading (exec (toast w t) s) = b.
Proof. intros H. unfold exec, toast. destruct (toast_failure w t); exact H. Qed.

Lemma check_ok_keeps_loading (r : Response) (b : bool) (s : State) :
  loading s = b -> loading (exec (check_ok r) s) = b.
Proof. intros H. unfold exec, check_ok. destruct (ok r); exact H. Qed.

Lemma get_property_keeps_loading (v : Json) (name : string) (b : bool) (s : State) :
  loading s = b -> loading (exec (get_property v name) s) = b.
Proof. intros H. unfold exec, get_property. destruct v; exact H. Qed.

(** fetchCryptocurrencies has no [finally] block and never touches the
    loading flag: the flag belongs to refreshAnalysis alone. *)
Lemma fetchCryptocurrencies_keeps_loading (w : World) (s : State) :
  loading (exec (fetchCryptocurrencies w) s) = loading s.
Proof.
  unfold fetchCryptocurrencies, try_catch.
  pose (P := fun st : State => loading st = loading s).
  apply (try_catch_finally_preserves P);
    [ | | intros s0 H; exact H | reflexivity ].
  - apply (bind_preserves P); [apply (await_preserves P) |]. intros response.
    apply (bind_preserves P); [intros s0 H; apply check_ok_keeps_loading, H |].
    intros _.
    apply (bind_preserves P); [apply (await_preserves P) |]. intros data.
    apply (bind_preserves P); [intros s0 H; apply get_property_keeps_loading, H |].
    intros listed s0 H. exact H.
  - intros e.
    apply (bind_preserves P); [intros s0 H; exact H |]. intros _ s0 H.
    apply toast_keeps_loading, H.
Qed.

End AnalysisPageFacts.

(** ** The records of the page as a run of the engine *)

Module PageAndEngineFacts.
Import PageAndEngine.

(** The four simulated records of the page are what the engine records
    for their prices and decisions from a starting cash of 24881, and that
    run closes with a total return of 8.5 percent. *)
Lemma sample_is_a_run_from_24881 :
  let ps := BacktestPage.sampleResults in
  exists records,
    BacktestEngine.run_backtest (fun _ _ _ => Some (series_of ps))
      "BTC" "2024-01-01" "2024-02-15" 24881 (config_of ps)
      = BacktestEngine.Completed records /\
    all_agree records ps = true /\
    (closing_equity 24881 records / 24881 - 1) * 100
      == BacktestPage.totalReturn BacktestPage.sampleStats.
Proof.
  eexists. split; [reflexivity |].
  split; [vm_compute; reflexivity | vm_compute; reflexivity].
Qed.

End PageAndEngineFacts.

(** ** AnalysisPage: the outcome of the two requests and the returned element *)

Module AnalysisViewFacts.
Import AnalysisPage AnalysisView.

Ltac run_handler :=
  unfold exec, completion, refreshAnalysis, fetchCryptocurrencies, try_catch,
    try_catch_finally, bind, await, modify, check_ok, toast, get_property, ret, throw;
  cbn [selectedCrypto setLoading fst snd].

(** The three ways a refresh ends.  Either both answers arrive and are
    stored; or the market request fails and nothing is stored; or the
    market data is stored and the analysis request fails.  In the two
    failing cases the [catch] block is entered. *)
Lemma refreshAnalysis_cases (w : World) (s : State) :
  let symbol := selectedCrypto s in
  (exists data payload,
     arrives w (market_url symbol) = Some data /\
     arrives w (analysis_url symbol) = Some payload /\
     nullish payload = false /\
     refreshAnalysis w s =
       (Normal tt,
        setLoading false
          (setAgents (field payload "agents") (setMarketData data (setLoading true s)))))
  \/
  (exists e,
     arrives w (market_url symbol) = None /\
     refreshAnalysis w s =
       (fst (reported w "Failed to refresh analysis:" refresh_failed e (setLoading true s)),
        setLoading false
          (snd (reported w "Failed to refresh analysis:" refresh_failed e
                  (setLoading true s)))))
  \/
  (exists data e,
     arrives w (market_url symbol) = Some data /\
     (arrives w (analysis_url symbol) = None \/
      exists payload, arrives w (analysis_url symbol) = Some payload /\
                      nullish payload = true) /\
     refreshAnalysis w s =
       (fst (reported w "Failed to refresh analysis:" refresh_failed e
               (setMarketData data (setLoading true s))),
        setLoading false
          (snd (reported w "Failed to refresh analysis:" refresh_failed e
                  (setMarketData data (setLoading true s)))))).
Proof.
  cbn zeta. unfold arrives, market_url, analysis_url, reported, refresh_failed.
  run_handler.
  destruct (fetch w ("http://localhost:8000/api/market-data/" ++ selectedCrypto s))
    as [r1 | e1].
  2:{ right. left. exists e1. split; [reflexivity |].
      destruct (toast_failure w _); reflexivity. }
  destruct (ok r1).
  2:{ right. left. eexists. split; [reflexivity |].
      destruct (toast_failure w _); reflexivity. }
  destruct (json r1) as [data | e1].
  2:{ right. left. exists e1. split; [reflexivity |].
      destruct (toast_failure w _); reflexivity. }
  destruct (fetch w ("http://localhost:8000/api/analysis/" ++ selectedCrypto s))
    as [r2 | e2].
  2:{ right. right. exists data, e2. split; [reflexivity |]. split; [left; reflexivity |].
      destruct (toast_failure w _); reflexivity. }
  destruct (ok r2).
  2:{ right. right. exists data. eexists. split; [reflexivity |].
      split; [left; reflexivity |].
      destruct (toast_failure w _); reflexivity. }
  destruct (json r2) as [payload | e2].
  2:{ right. right. exists data, e2. split; [reflexivity |]. split; [left; reflexivity |].
      destruct (toast_failure w _); reflexivity. }
  destruct payload;
    try (left; eexists; eexists; repeat split; reflexivity);
    right; right; exists data; eexists; (split; [reflexivity |]);
    (split; [right; eexists; split; reflexivity |]);
    destruct (toast_failure w _); reflexivity.
Qed.

(** The two ways the listing request ends. *)
Lemma fetchCryptocurrencies_cases (w : World) (s : State) :
  (exists payload,
     arrives w listing_url = Some payload /\ nullish payload = false /\
     fetchCryptocurrencies w s =
       (Normal tt, setCryptocurrencies (field payload "data") s))
  \/
  (exists e,
     (arrives w listing_url = None \/
      exists payload, arrives w listing_url = Some payload /\ nullish payload = true) /\
     fetchCryptocurrencies w s =
       reported w "Error fetching cryptocurrencies:" listing_failed e s).
Proof.
  unfold arrives, listing_url, reported, listing_failed. run_handler.
  destruct (fetch w "http://localhost:8000/api/cryptocurrencies") as [r | e].
  2:{ right. exists e. split; [left; reflexivity |].
      destruct (toast_failure w _); reflexivity. }
  destruct (ok r).
  2:{ right. eexists. split; [left; reflexivity |].
      destruct (toast_failure w _); reflexivity. }
  destruct (json r) as [payload | e].
  2:{ right. exists e. split; [left; reflexivity |].
      destruct (toast_failure w _); reflexivity. }
  destruct payload;
    try (left; eexists; repeat split; reflexivity);
    right; eexists; (split; [right; eexists; split; reflexivity |]);
    destruct (toast_failure w _); reflexivity.
Qed.

(** What entering a [catch] block changes. *)
Lemma reported_effect (w : World) (msg : string) (t : Toast) (e : Err) (s : State) :
  let s' := snd (reported w msg t e s) in
  cryptocurrencies s' = cryptocurrencies s /\ selectedCrypto s' = selectedCrypto s /\
  marketData s' = marketData s /\ agents s' = agents s /\ loading s' = loading s /\
  console s' = (console s ++ [(msg, e)])%list /\
  ((toast_failure w t = None /\ toasts s' = (toasts s ++ [t])%list /\
    fst (reported w msg t e s) = Normal tt) \/
   (exists e', toast_failure w t = Some e' /\ toasts s' = toasts s /\
               fst (reported w msg t e s) = Thrown e')).
Proof.
  unfold reported. destruct (toast_failure w t) as [e' |]; cbn.
  - repeat split. right. exists e'. auto.
  - repeat split. left. auto.
Qed.

(** X1: a refresh stores both answers or reports.  It never changes the
    selected symbol or the list of cryptocurrencies.  When both answers
    arrive, the market data and the agents become what the server sent,
    nothing is logged and no toast is shown.  Otherwise the agents stay as
    they were, exactly one error is logged, the failure toast is shown
    (unless the toast hook throws), and the market data is replaced if and
    only if the market request itself arrived. *)
Theorem refresh_stores_or_reports (w : World) (s : State) :
  let s' := exec (refreshAnalysis w) s in
  (selectedCrypto s' = selectedCrypto s /\ cryptocurrencies s' = cryptocurrencies s) /\
  match refresh_complete w (selectedCrypto s) with
  | Some (data, fetched) =>
      completion (refreshAnalysis w) s = Normal tt /\
      marketData s' = data /\ agents s' = fetched /\
      console s' = console s /\ toasts s' = toasts s
  | None =>
      agents s' = agents s /\
      (exists e, console s' = (console s ++ [("Failed to refresh analysis:", e)])%list) /\
      (toasts s' = (toasts s ++ [refresh_failed])%list \/
       (toasts s' = toasts s /\ toast_failure w refresh_failed <> None)) /\
      marketData s' = match arrives w (market_url (selectedCrypto s)) with
                      | Some data => data
                      | None => marketData s
                      end
  end.
Proof.
  cbn zeta. unfold refresh_complete, exec, completion.
  destruct (refreshAnalysis_cases w s)
    as [[data [payload [H1 [H2 [Hn E]]]]] | [[e [H1 E]] | [data [e [H1 [H2 E]]]]]];
    rewrite E; clear E.
  - rewrite H1, H2, Hn. cbn. auto 10.
  - rewrite H1.
    destruct (reported_effect w "Failed to refresh analysis:" refresh_failed e
                (setLoading true s)) as [Hl [Hsel [Hm [Ha [_ [Hc Ht]]]]]].
    cbn [snd fst setLoading agents console toasts marketData selectedCrypto
         cryptocurrencies] in *.
    rewrite Ha, Hc, Hm, Hl, Hsel. cbn.
    split; [auto |].
    split; [reflexivity |]. split; [exists e; reflexivity |]. split; [| reflexivity].
    destruct Ht as [[_ [Ht _]] | [e' [Hf [Ht _]]]]; rewrite Ht; cbn.
    + left. reflexivity.
    + right. split; [reflexivity | congruence].
  - rewrite H1.
    assert (Hnone : match arrives w (analysis_url (selectedCrypto s)) with
                    | Some payload =>
                        if nullish payload then None else Some (data, field payload "agents")
                    | None => None
                    end = None).
    { destruct H2 as [-> | [payload [-> ->]]]; reflexivity. }
    rewrite Hnone.
    destruct (reported_effect w "Failed to refresh analysis:" refresh_failed e
                (setMarketData data (setLoading true s)))
      as [Hl [Hsel [Hm [Ha [_ [Hc Ht]]]]]].
    cbn [snd fst setLoading agents console toasts marketData selectedCrypto
         cryptocurrencies] in *.
    rewrite Ha, Hc, Hm, Hl, Hsel. cbn.
    split; [auto |].
    split; [reflexivity |]. split; [exists e; reflexivity |]. split; [| reflexivity].
    destruct Ht as [[_ [Ht _]] | [e' [Hf [Ht _]]]]; rewrite Ht; cbn.
    + left. reflexivity.
    + right. split; [reflexivity | congruence].
Qed.

(** X2: the listing request stores the list or reports.  When the answer
    arrives, the list becomes its [data] and nothing is logged; otherwise
    the list stays as it was, and exactly one error is logged.  In both
    cases the selected symbol, the market data, the agents and the loading
    flag are left alone. *)
Theorem listing_stores_or_reports (w : World) (s : State) :
  let s' := exec (fetchCryptocurrencies w) s in
  (selectedCrypto s' = selectedCrypto s /\ marketData s' = marketData s /\
   agents s' = agents s /\ loading s' = loading s) /\
  match listing_complete w with
  | Some listed =>
      completion (fetchCryptocurrencies w) s = Normal tt /\
      cryptocurrencies s' = listed /\
      console s' = console s /\ toasts s' = toasts s
  | None =>
      cryptocurrencies s' = cryptocurrencies s /\
      (exists e,
         console s' = (console s ++ [("Error fetching cryptocurrencies:", e)])%list) /\
      (toasts s' = (toasts s ++ [listing_failed])%list \/
       (toasts s' = toasts s /\ toast_failure w listing_failed <> None))
  end.
Proof.
  cbn zeta. unfold listing_complete, exec, completion.
  destruct (fetchCryptocurrencies_cases w s) as [[payload [H1 [Hn E]]] | [e [H1 E]]];
    rewrite E; clear E.
  - rewrite H1, Hn. cbn. auto 10.
  - assert (Hnone : match arrives w listing_url with
                    | Some payload => if nullish payload then None
                                      else Some (field payload "data")
                    | None => None
                    end = None).
    { destruct H1 as [-> | [payload [-> ->]]]; reflexivity. }
    rewrite Hnone.
    destruct (reported_effect w "Error fetching cryptocurrencies:" listing_failed e s)
      as [Hl [Hs [Hm [Ha [Hf [Hc Ht]]]]]].
    cbn zeta in *. rewrite Hs, Hm, Ha, Hf, Hl, Hc.
    split; [auto |]. split; [reflexivity |]. split; [exists e; reflexivity |].
    destruct Ht as [[_ [Ht _]] | [e' [Hfail [Ht _]]]]; rewrite Ht.
    + left. reflexivity.
    + right. split; [reflexivity | congruence].
Qed.

(** X3: a refresh talks to the two endpoints of the selected symbol and
    to nothing else, and it does not ask for the analysis once the market
    request has failed.  Two environments that answer the market request
    alike, that answer the analysis request alike unless the market request
    fails, and whose toast hook treats the failure toast alike, give the
    same completion and the same state. *)
Theorem refresh_reads_two_endpoints (w1 w2 : World) (s : State) :
  fetch w1 (market_url (selectedCrypto s)) = fetch w2 (market_url (selectedCrypto s)) ->
  (arrives w1 (market_url (selectedCrypto s)) <> None ->
   fetch w1 (analysis_url (selectedCrypto s)) = fetch w2 (analysis_url (selectedCrypto s))) ->
  toast_failure w1 refresh_failed = toast_failure w2 refresh_failed ->
  refreshAnalysis w1 s = refreshAnalysis w2 s.
Proof.
  intros Hm Ha Ht.
  assert (Ha' : fetch w1 (market_url (selectedCrypto s)) = fetch w2 (market_url (selectedCrypto s))
                /\ (forall r data,
                      fetch w1 (market_url (selectedCrypto s)) = Fulfilled r ->
                      ok r = true -> json r = Fulfilled data ->
                      fetch w1 (analysis_url (selectedCrypto s))
                      = fetch w2 (analysis_url (selectedCrypto s)))).
  { split; [exact Hm |]. intros r data E1 E2 E3. apply Ha.
    unfold arrives. rewrite E1, E2, E3. cbn. discriminate. }
  clear Ha Hm. destruct Ha' as [Hm Ha].
  unfold market_url, analysis_url, refresh_failed in *.
  run_handler. rewrite <- Hm, <- Ht.
  destruct (fetch w1 ("http://localhost:8000/api/market-data/" ++ selectedCrypto s))
    as [r1 | e1]; [| reflexivity].
  destruct (ok r1) eqn:E2; [| reflexivity].
  destruct (json r1) as [data | e1] eqn:E3; [| reflexivity].
  rewrite <- (Ha r1 data eq_refl E2 E3). reflexivity.
Qed.

(** *** The returned element *)

Lemma select_item_completes (crypto : Json) :
  completion (@select_item unit crypto) tt = Normal tt <-> nullish crypto = false.
Proof. destruct crypto; cbn; split; intros H; try reflexivity; discriminate H. Qed.

Lemma agent_card_completes (agent : Json) :
  completion (@agent_card unit agent) tt = Normal tt <-> nullish agent = false.
Proof. destruct agent; cbn; split; intros H; try reflexivity; discriminate H. Qed.

Lemma completion_unit_cases (m : Eff unit unit) :
  m tt = (Normal tt, tt) \/ exists e, m tt = (Thrown e, tt).
Proof.
  destruct (m tt) as [[[] | e] []]; [left; reflexivity | right; exists e; reflexivity].
Qed.

(** [map] over the items completes exactly when the callback completes on
    each of them. *)
Lemma for_each_completes (callback : Json -> Eff unit unit) (items : list Json) :
  (forall item, completion (callback item) tt = Normal tt <-> nullish item = false) ->
  completion (for_each callback items) tt = Normal tt
  <-> forallb (fun item => negb (nullish item)) items = true.
Proof.
  intros Hcb. unfold completion in *.
  induction items as [| item rest IH]; cbn [for_each forallb].
  - split; reflexivity.
  - unfold bind. specialize (Hcb item).
    destruct (completion_unit_cases (callback item)) as [E | [e E]]; rewrite E in *.
    + cbn [fst] in Hcb. rewrite (proj1 Hcb eq_refl). cbn. exact IH.
    + cbn [fst] in Hcb. destruct (nullish item).
      * cbn. split; discriminate.
      * destruct Hcb as [_ Hcb]. discriminate (Hcb eq_refl).
Qed.

Lemma call_map_completes (v : Json) (callback : Json -> Eff unit unit) :
  (forall item, completion (callback item) tt = Normal tt <-> nullish item = false) ->
  completion (call_map v callback) tt = Normal tt <-> array_of_values v = true.
Proof.
  intros Hcb. destruct v; cbn [call_map array_of_values];
    try (split; intros H; discriminate H).
  apply for_each_completes, Hcb.
Qed.

Lemma market_completes (data : Json) :
  completion
    (price <- get_property data "price" ;;
     call_toLocaleString price ;;
     get_property data "change24h" ;;
     change <- get_property data "change24h" ;;
     call_toFixed change ;;
     volume <- get_property data "volume" ;;
     @call_toFixed unit volume)%eff tt = Normal tt
  <-> shows_market data = true.
Proof.
  unfold shows_market, localizable, call_toLocaleString, completion, bind.
  destruct data as [| | b | q | t | items | fields];
    try (cbn; split; intros H; discriminate H).
  cbn [get_property field ret fst snd].
  destruct (localize_error (lookup "price" fields)); cbn;
    try (split; intros H; discriminate H).
  destruct (lookup "change24h" fields); cbn;
    try (split; intros H; discriminate H).
  destruct (lookup "volume" fields); cbn;
    split; intros H; try reflexivity; discriminate H.
Qed.

Lemma render_completes_iff_renderable_aux (s : State) :
  render s = Normal tt <-> renderable s = true.
Proof.
  unfold render, renderable, returned.
  pose proof (call_map_completes (cryptocurrencies s) select_item select_item_completes)
    as Hlist.
  pose proof (call_map_completes (agents s) agent_card agent_card_completes) as Hagents.
  pose proof (market_completes (marketData s)) as Hmarket.
  unfold completion in *. unfold bind at 1.
  destruct (completion_unit_cases (call_map (cryptocurrencies s) select_item))
    as [E | [e E]]; rewrite E in *; cbn [fst] in Hlist.
  2:{ destruct (array_of_values (cryptocurrencies s)).
      - destruct Hlist as [_ H]. discriminate (H eq_refl).
      - cbn. split; discriminate. }
  rewrite (proj1 Hlist eq_refl). cbn [andb].
  revert Hmarket. unfold bind.
  repeat
    match goal with
    | |- context [match ?m tt with _ => _ end] =>
        lazymatch m with
        | call_map _ _ => fail
        | _ => idtac
        end;
        destruct (m tt) as [[? | ?] []];
        [| intros Hmarket; cbn [fst snd] in Hmarket;
           destruct (shows_market (marketData s));
           [destruct Hmarket as [_ H]; specialize (H eq_refl); discriminate H
           | cbn; split; discriminate]]
    end.
  intros Hmarket. cbn [fst snd] in Hmarket.
  repeat match goal with u : unit |- _ => destruct u end.
  rewrite (proj1 Hmarket eq_refl). cbn [andb].
  exact Hagents.
Qed.

Lemma render_cases (s : State) :
  render s = Normal tt \/ exists e, render s = Thrown e.
Proof.
  unfold render, completion.
  destruct (completion_unit_cases (returned s)) as [E | [e E]]; rewrite E; cbn; eauto.
Qed.

(** X5: an answer is stored without a look at its shape.  When both
    answers of a refresh arrive, but the market data cannot be shown or
    the analysis has no array of agents, the refresh completes normally,
    logs nothing and shows no toast, and the return statement of the
    component throws in the state it leaves. *)
Theorem unchecked_answer_breaks_render (w : World) (s : State) (data payload : Json) :
  arrives w (market_url (selectedCrypto s)) = Some data ->
  arrives w (analysis_url (selectedCrypto s)) = Some payload ->
  nullish payload = false ->
  shows_market data = false \/ array_of_values (field payload "agents") = false ->
  completion (refreshAnalysis w) s = Normal tt /\
  console (exec (refreshAnalysis w) s) = console s /\
  toasts (exec (refreshAnalysis w) s) = toasts s /\
  exists e, render (exec (refreshAnalysis w) s) = Thrown e.
Proof.
  intros Hm Ha Hn Hbad. unfold completion, exec.
  destruct (refreshAnalysis_cases w s)
    as [[data' [payload' [H1 [H2 [_ E]]]]] | [[e [H1 _]] | [data' [e [_ [H2 _]]]]]].
  - rewrite Hm in H1. rewrite Ha in H2.
    injection H1 as <-. injection H2 as <-. rewrite E. cbn [fst snd].
    repeat split.
    destruct (render_cases
                (setLoading false
                   (setAgents (field payload "agents")
                      (setMarketData data (setLoading true s))))) as [Hok | Hthrown];
      [| exact Hthrown].
    apply render_completes_iff_renderable_aux in Hok.
    unfold renderable in Hok. cbn [setLoading setAgents setMarketData cryptocurrencies
      marketData agents] in Hok.
    apply andb_true_iff in Hok. destruct Hok as [Hok Hagents].
    apply andb_true_iff in Hok. destruct Hok as [_ Hmarket].
    destruct Hbad as [Hbad | Hbad]; congruence.
  - cbn zeta in H1. congruence.
  - cbn zeta in H2. destruct H2 as [H2 | [p [H2 Hp]]]; [congruence |].
    rewrite Ha in H2. injection H2 as <-. congruence.
Qed.

(** A server that answers every request with this body. *)
Lemma always_answers (body : Json) (url : string) :
  arrives {| fetch := fun _ => Fulfilled {| ok := true; status := 200;
                                            json := Fulfilled body |};
             toast_failure := fun _ => None |} url = Some body.
Proof. reflexivity. Qed.

Lemma unchecked_answer_breaks_render_witness :
  let w := {| fetch := fun _ => Fulfilled {| ok := true; status := 200;
                                             json := Fulfilled (JObj []) |};
              toast_failure := fun _ => None |} in
  completion (refreshAnalysis w) init = Normal tt /\
  console (exec (refreshAnalysis w) init) = console init /\
  toasts (exec (refreshAnalysis w) init) = toasts init /\
  exists e, render (exec (refreshAnalysis w) init) = Thrown e.
Proof.
  intros w.
  apply (unchecked_answer_breaks_render w init (JObj []) (JObj [])
           eq_refl eq_refl eq_refl (or_introl eq_refl)).
Defined.

Lemma refresh_reads_two_endpoints_witness :
  let answer (body : Json) : Settled Response :=
    Fulfilled {| ok := true; status := 200; json := Fulfilled body |} in
  let w1 := {| fetch := fun url =>
                 if String.eqb url listing_url then Rejected "offline"
                 else answer (JObj [("agents", JArr [])]);
               toast_failure := fun _ => None |} in
  let w2 := {| fetch := fun _ => answer (JObj [("agents", JArr [])]);
               toast_failure := fun _ => None |} in
  refreshAnalysis w1 init = refreshAnalysis w2 init.
Proof.
  intros answer w1 w2.
  apply (refresh_reads_two_endpoints w1 w2 init); [reflexivity | | reflexivity].
  intros _. reflexivity.
Defined.

(** X4: what the return statement needs.  In a state where the list of
    cryptocurrencies or the agents is not an array, or has a null or
    undefined item, where the price of the market data is null, undefined
    or a value on which [toLocaleString] cannot be called, or where its
    change or its volume is not a number, the return statement of the
    component throws. *)
Theorem render_throws_unless_renderable (s : State) :
  renderable s = false -> exists e, render s = Thrown e.
Proof.
  intros Hf. destruct (render_cases s) as [Hok | Hthrown]; [| exact Hthrown].
  apply render_completes_iff_renderable_aux in Hok. congruence.
Qed.

(** A price that is an object with a property [toLocaleString] of its
    own: the call of line 127 finds the property, not the method. *)
Lemma render_throws_unless_renderable_witness :
  let data := JObj [("price", JObj [("toLocaleString", JNum 1)]);
                    ("change24h", JNum 0); ("volume", JNum 0)] in
  renderable (setMarketData data init) = false /\
  exists e, render (setMarketData data init) = Thrown e.
Proof.
  intros data. split; [reflexivity |].
  apply (render_throws_unless_renderable (setMarketData data init)). reflexivity.
Defined.

Lemma typed_after_report (w : World) (msg : string) (t : Toast) (e : Err) (s : State) :
  typed (snd (reported w msg t e s)) = typed s.
Proof. unfold reported. destruct (toast_failure w t); reflexivity. Qed.

(** X6: the declared types hold at run time as long as the server keeps
    them.  The initial state has the types its [useState] declares; from
    a state that has them, with a server whose answers have the types the
    page declares for them, a refresh, the listing request and the choice
    of another symbol each lead to a state that has them, whether the
    requests succeed or fail. *)
Theorem well_typed_server_keeps_state_typed (w : World) (s : State) :
  well_typed w ->
  typed s = true ->
  typed init = true /\
  typed (exec (refreshAnalysis w) s) = true /\
  typed (exec (fetchCryptocurrencies w) s) = true /\
  (forall symbol, typed (setSelectedCrypto symbol s) = true).
Proof.
  intros [Hlist [Hmarket Hagents]] Hs.
  unfold typed in Hs.
  apply andb_true_iff in Hs. destruct Hs as [Hs Ha].
  apply andb_true_iff in Hs. destruct Hs as [Hc Hm].
  split; [reflexivity |].
  split; [| split].
  - unfold exec.
    destruct (refreshAnalysis_cases w s)
      as [[data [payload [H1 [H2 [_ E]]]]] | [[e [_ E]] | [data [e [H1 [_ E]]]]]];
      rewrite E; cbn [snd]; clear E.
    + unfold typed. cbn. rewrite Hc, (Hmarket _ _ H1), (Hagents _ _ H2). reflexivity.
    + change (typed (snd (reported w "Failed to refresh analysis:" refresh_failed e
                            (setLoading true s))) = true).
      rewrite typed_after_report. unfold typed. cbn.
      rewrite Hc, Hm, Ha. reflexivity.
    + change (typed (snd (reported w "Failed to refresh analysis:" refresh_failed e
                            (setMarketData data (setLoading true s)))) = true).
      rewrite typed_after_report. unfold typed. cbn.
      rewrite Hc, (Hmarket _ _ H1), Ha. reflexivity.
  - unfold exec.
    destruct (fetchCryptocurrencies_cases w s) as [[payload [H1 [_ E]]] | [e [_ E]]];
      rewrite E; cbn [snd]; clear E.
    + unfold typed. cbn. rewrite (Hlist _ H1), Hm, Ha. reflexivity.
    + rewrite typed_after_report. unfold typed. rewrite Hc, Hm, Ha. reflexivity.
  - intros symbol. unfold typed. cbn. rewrite Hc, Hm, Ha. reflexivity.
Qed.

Lemma well_typed_server_keeps_state_typed_witness :
  let body :=
    JObj [("data", JArr [JObj [("symbol", JStr "BTC"); ("name", JStr "Bitcoin")]]);
          ("price", JNum 42000); ("change24h", JNum (-1.5)); ("volume", JNum 1);
          ("agents", JArr [JObj [("title", JStr "t"); ("content", JStr "c");
                                 ("loading", JBool false)]])] in
  let w := {| fetch := fun _ => Fulfilled {| ok := true; status := 200;
                                             json := Fulfilled body |};
              toast_failure := fun _ => None |} in
  well_typed w /\
  typed init = true /\
  typed (exec (refreshAnalysis w) init) = true /\
  typed (exec (fetchCryptocurrencies w) init) = true /\
  agents (exec (refreshAnalysis w) init) = field body "agents".
Proof.
  intros body w.
  assert (Hw : well_typed w).
  { unfold well_typed. repeat split; intros; unfold w in *;
      rewrite always_answers in *;
      match goal with H : Some _ = Some _ |- _ => injection H as <- end; reflexivity. }
  split; [exact Hw |].
  destruct (well_typed_server_keeps_state_typed w init Hw eq_refl)
    as [H0 [H1 [H2 _]]].
  split; [exact H0 |]. split; [exact H1 |]. split; [exact H2 | reflexivity].
Defined.

End AnalysisViewFacts.

(** ** ConfigPage: sessions *)

Module ConfigSessionFacts.
Import ConfigPage ConfigSession.

Lemma key_eqb_spec (a b : ApiKey) : key_eqb a b = true <-> a = b.
Proof. destruct a, b; cbn; split; intros H; try reflexivity; discriminate H. Qed.

Lemma handleInputChange_get (key other : ApiKey) (v : string) (s : State) :
  get other (apiKeys (handleInputChange key v s))
  = if key_eqb key other then v else get other (apiKeys s).
Proof. destruct key, other; reflexivity. Qed.

Lemma click_keeps_keys (w : World) (p : Settled unit) (good bad : Toast) (s : State) :
  apiKeys (exec (guarded w p good bad) s) = apiKeys s.
Proof.
  destruct (ConfigPageFacts.guarded_effect w p good bad s) as [shown [E _]].
  rewrite E. reflexivity.
Qed.

Lemma handle_get (key : ApiKey) (s : State) (ev : Event) :
  get key (apiKeys (handle s ev))
  = last_typed key (get key (apiKeys s)) [ev].
Proof.
  destruct ev as [k v | w | w]; cbn [handle last_typed].
  - apply handleInputChange_get.
  - destruct (button_disabled s); [reflexivity |].
    rewrite ConfigPageFacts.testConnection_guarded, click_keeps_keys. reflexivity.
  - destruct (button_disabled s); [reflexivity |].
    rewrite ConfigPageFacts.saveConfig_guarded, click_keeps_keys. reflexivity.
Qed.

(** X7: a key holds what was last typed into its input.  After any
    session of typing and clicking, each of the three keys is the value
    last typed into its own input, or empty when nothing was typed there;
    what was typed into the other inputs and the clicks on the two buttons
    make no difference. *)
Theorem key_is_last_typed (evs : list Event) (key : ApiKey) :
  get key (apiKeys (session evs)) = last_typed key "" evs.
Proof.
  unfold session.
  assert (G : forall s, get key (apiKeys (fold_left handle evs s))
                        = last_typed key (get key (apiKeys s)) evs).
  { induction evs as [| ev evs IH]; intros s; [reflexivity |].
    cbn [fold_left]. rewrite IH, handle_get.
    destruct ev; reflexivity. }
  rewrite G. destruct key; reflexivity.
Qed.

(** X8: the two handlers never read the keys.  Typing into an input
    before a connection test or a save gives the same state as typing
    after it, with the same toasts and the same completion: the test
    reports success or failure whatever the keys are. *)
Theorem handlers_commute_with_typing (w : World) (s : State) (key : ApiKey) (v : string) :
  (exec (testConnection w) (handleInputChange key v s)
     = handleInputChange key v (exec (testConnection w) s) /\
   completion (testConnection w) (handleInputChange key v s)
     = completion (testConnection w) s) /\
  (exec (saveConfig w) (handleInputChange key v s)
     = handleInputChange key v (exec (saveConfig w) s) /\
   completion (saveConfig w) (handleInputChange key v s)
     = completion (saveConfig w) s).
Proof.
  rewrite ConfigPageFacts.testConnection_guarded, ConfigPageFacts.saveConfig_guarded.
  assert (G : forall p good bad,
             exec (guarded w p good bad) (handleInputChange key v s)
               = handleInputChange key v (exec (guarded w p good bad) s) /\
             completion (guarded w p good bad) (handleInputChange key v s)
               = completion (guarded w p good bad) s).
  { intros p good bad.
    unfold guarded, exec, completion, bind, try_catch_finally, await, toast, modify,
      ret, throw.
    destruct p as [[] | e].
    - destruct (toast_failure w good); [destruct (toast_failure w bad) |];
        split; reflexivity.
    - destruct (toast_failure w bad); split; reflexivity. }
  split; apply G.
Qed.

(** X12: with a toast hook that does not throw, each of the two
    handlers shows exactly one toast and returns normally: the success
    toast when the awaited call fulfils, the destructive failure toast
    when it is rejected. *)
Theorem one_toast_per_click (w : World) (s : State) :
  (forall t, toast_failure w t = None) ->
  (completion (testConnection w) s = Normal tt /\
   exists t, toasts (exec (testConnection w) s) = (toasts s ++ [t])%list /\
             title t = (match connection_test w with
                        | Fulfilled _ => "连接测试成功"
                        | Rejected _ => "连接测试失败"
                        end) /\
             destructive t = (match connection_test w with
                              | Fulfilled _ => false
                              | Rejected _ => true
                              end)) /\
  (completion (saveConfig w) s = Normal tt /\
   exists t, toasts (exec (saveConfig w) s) = (toasts s ++ [t])%list /\
             title t = (match config_save w with
                        | Fulfilled _ => "配置保存成功"
                        | Rejected _ => "配置保存失败"
                        end) /\
             destructive t = (match config_save w with
                              | Fulfilled _ => false
                              | Rejected _ => true
                              end)).
Proof.
  intros Hhook.
  unfold testConnection, saveConfig, exec, completion, bind, try_catch_finally,
    await, toast, modify, ret, throw.
  split.
  - destruct (connection_test w) as [[] | e]; rewrite !Hhook; cbn;
      (split; [reflexivity |]); eexists; repeat split.
  - destruct (config_save w) as [[] | e]; rewrite !Hhook; cbn;
      (split; [reflexivity |]); eexists; repeat split.
Qed.

Lemma one_toast_per_click_witness :
  let w := {| connection_test := Fulfilled tt; config_save := Rejected "offline";
              toast_failure := fun _ => None |} in
  completion (testConnection w) init = Normal tt /\
  completion (saveConfig w) init = Normal tt.
Proof.
  intros w.
  destruct (one_toast_per_click w init (fun _ => eq_refl)) as [[H1 _] [H2 _]].
  split; [exact H1 | exact H2].
Defined.

End ConfigSessionFacts.

(** ** BacktestPage: sessions *)

Module BacktestSessionFacts.
Import BacktestPage BacktestView.

Lemma blocked_without_start (s : State) : startDate s = "" -> button_disabled s = true.
Proof.
  intros H. unfold button_disabled. rewrite H. cbn.
  rewrite orb_true_r. reflexivity.
Qed.

Lemma blocked_without_end (s : State) : endDate s = "" -> button_disabled s = true.
Proof.
  intros H. unfold button_disabled. rewrite H. cbn.
  rewrite orb_true_r. reflexivity.
Qed.

Lemma no_run_without_start (evs : list Event) :
  forall s, startDate s = "" -> never_set is_start_edit evs ->
    results (fold_left handle evs s) = results s /\
    stats (fold_left handle evs s) = stats s /\
    console (fold_left handle evs s) = console s.
Proof.
  induction evs as [| ev evs IH]; intros s Hs Hnever; [repeat split |].
  assert (Hrest : never_set is_start_edit evs).
  { intros ev' v Hin. apply Hnever. right. exact Hin. }
  cbn [fold_left]. destruct ev as [v | v | w]; cbn [handle].
  - assert (v = "") as -> by (apply (Hnever (ChangeStartDate v)); [left |]; reflexivity).
    apply (IH (setStartDate "" s)); [reflexivity | exact Hrest].
  - apply (IH (setEndDate v s)); [exact Hs | exact Hrest].
  - rewrite (blocked_without_start s Hs). apply IH; assumption.
Qed.

Lemma no_run_without_end (evs : list Event) :
  forall s, endDate s = "" -> never_set is_end_edit evs ->
    results (fold_left handle evs s) = results s /\
    stats (fold_left handle evs s) = stats s /\
    console (fold_left handle evs s) = console s.
Proof.
  induction evs as [| ev evs IH]; intros s Hs Hnever; [repeat split |].
  assert (Hrest : never_set is_end_edit evs).
  { intros ev' v Hin. apply Hnever. right. exact Hin. }
  cbn [fold_left]. destruct ev as [v | v | w]; cbn [handle].
  - apply (IH (setStartDate v s)); [exact Hs | exact Hrest].
  - assert (v = "") as -> by (apply (Hnever (ChangeEndDate v)); [left |]; reflexivity).
    apply (IH (setEndDate "" s)); [reflexivity | exact Hrest].
  - rewrite (blocked_without_end s Hs). apply IH; assumption.
Qed.

(** X10: no backtest without both dates.  In a session in which the
    start date, or the end date, is never set to a non-empty value, no run
    ever starts, however often the button is clicked: the results stay
    empty, the statistics stay zero and nothing is logged. *)
Theorem no_run_without_both_dates (evs : list Event) :
  never_set is_start_edit evs \/ never_set is_end_edit evs ->
  results (session evs) = [] /\
  stats (session evs) = stats init /\
  console (session evs) = [].
Proof.
  unfold session. intros [H | H].
  - apply (no_run_without_start evs init eq_refl H).
  - apply (no_run_without_end evs init eq_refl H).
Qed.

Lemma no_run_without_both_dates_witness :
  let w := {| pending := Fulfilled tt |} in
  let evs := [ChangeEndDate "2024-03-01"; ClickRun w; ChangeStartDate ""; ClickRun w] in
  never_set is_start_edit evs /\
  results (session evs) = [] /\
  stats (session evs) = stats init /\
  console (session evs) = [].
Proof.
  intros w evs.
  assert (H : never_set is_start_edit evs).
  { intros ev v Hin Hpick. cbn in Hin.
    destruct Hin as [<- | [<- | [<- | [<- | []]]]]; cbn in Hpick;
      try discriminate Hpick.
    injection Hpick as <-. reflexivity. }
  split; [exact H |].
  apply (no_run_without_both_dates evs (or_introl H)).
Defined.

End BacktestSessionFacts.

(** ** The navigation bar and the routes *)

Module NavbarFacts.
Import Navbar.

(** X11: the bar highlights where its links lead.  On every pathname at
    most one of the three buttons has the default variant, and the link
    of that button leads to that very pathname.  On the pathname a link
    of the bar leads to, exactly that link's button is highlighted; and
    on the pathname a redirecting route of the application leads to,
    exactly one button is. *)
Theorem at_most_one_link_highlighted (pathname : string) :
  (List.length (highlighted pathname) <= 1)%nat /\
  (forall l, In l (highlighted pathname) -> In l links /\ to l = pathname) /\
  (forall l, In l links -> highlighted (to l) = [l]) /\
  (forall target, In target App.redirect_targets ->
                  exists l, highlighted target = [l] /\ to l = target).
Proof.
  split; [| split; [| split]].
  - unfold highlighted, links, variant. cbn [filter active_on].
    destruct (String.eqb_spec pathname "/analysis") as [-> | N1]; [cbn; lia |].
    destruct (String.eqb_spec pathname "/backtest") as [-> | N2]; [cbn; lia |].
    destruct (String.eqb_spec pathname "/config") as [-> | N3]; cbn; lia.
  - intros l Hin. unfold highlighted in Hin. apply filter_In in Hin.
    destruct Hin as [Hl Hv]. split; [exact Hl |].
    unfold variant in Hv.
    destruct (String.eqb_spec pathname (active_on l)) as [E | N]; [| discriminate Hv].
    cbn in Hl. destruct Hl as [<- | [<- | [<- | []]]]; cbn in E; rewrite E; reflexivity.
  - intros l Hl. cbn in Hl.
    destruct Hl as [<- | [<- | [<- | []]]]; reflexivity.
  - intros target Ht. cbn in Ht. destruct Ht as [<- | []].
    eexists. split; reflexivity.
Qed.

End NavbarFacts.

(** ** BacktestPage: runBacktest statement by statement *)

Module BacktestStepsFacts.
Import BacktestPage BacktestView BacktestSteps.

Lemma disabled_while_loading (s : State) : loading s = true -> button_disabled s = true.
Proof. intros H. unfold button_disabled. rewrite H. reflexivity. Qed.

(** The steps of one invocation, taken without interruption, are the
    handler: a click on the enabled button followed by the steps of the
    invocation leaves the state [runBacktest] leaves, for either
    settlement of the awaited promise. *)
Lemma steps_are_runBacktest (s : State) (p : Settled unit) :
  button_disabled s = false ->
  fold_left move [Click; Advance 0 p; Advance 0 p; Advance 0 p]
            {| view := s; inflight := [] |}
  = {| view := exec (runBacktest {| pending := p |}) s; inflight := [] |}.
Proof.
  intros H. cbn [fold_left move view inflight]. rewrite H.
  destruct p as [[] | e]; reflexivity.
Qed.

Lemma move_consistent (pg : Page) (m : Move) : consistent pg -> consistent (move pg m).
Proof.
  destruct pg as [s l]. unfold consistent. cbn [inflight view].
  destruct l as [| ph [| ph' l]].
  - intros [Hl Ht]. destruct m as [v | v | | i p]; cbn [move view inflight].
    + split; [exact Hl | exact Ht].
    + split; [exact Hl | exact Ht].
    + destruct (button_disabled s); cbn [view inflight app]; split;
        try reflexivity; try exact Hl; exact Ht.
    + destruct i; cbn; split; assumption.
  - destruct m as [v | v | | i p]; cbn [move view inflight].
    + destruct ph; intros H; exact H.
    + destruct ph; intros H; exact H.
    + intros H.
      assert (Hl : loading s = true) by (destruct ph; apply H).
      rewrite (disabled_while_loading s Hl). exact H.
    + destruct i as [| i].
      * destruct ph; cbn.
        -- intros [Hl Ht]. destruct p as [u | e]; cbn [view inflight].
           ++ split; [exact Hl |]. split; [reflexivity |].
              destruct Ht as [[_ [Hs _]] | [_ [Hs _]]]; [left | right]; exact Hs.
           ++ split; [exact Hl | exact Ht].
        -- intros [Hl [Hr Hs]]. repeat split; assumption.
        -- intros [Hl [Hr Hs]]. split; [reflexivity |]. right.
           repeat split; try assumption.
           unfold shows_results. cbn. rewrite Hr. reflexivity.
        -- intros [Hl Ht]. split; [reflexivity | exact Ht].
      * cbn. destruct i; intros H; exact H.
  - destruct ph; intros [].
Qed.

Lemma play_consistent (ms : list Move) : consistent (play ms).
Proof.
  unfold play.
  assert (G : forall pg, consistent pg -> consistent (fold_left move ms pg)).
  { induction ms as [| m ms IH]; intros pg H; [exact H |].
    cbn [fold_left]. apply IH, move_consistent, H. }
  apply G. cbn. split; [reflexivity |]. left. repeat split.
Qed.

(** X9: what the page shows, at every step of every run.  Invocations of
    runBacktest never overlap; the loading flag is up exactly while one
    is in flight; whenever none is in flight the results and the
    statistics belong together -- nothing shown and zero statistics, or
    the simulated records shown with their statistics; and at no step,
    not even between the statements of an invocation, are the statistics
    of a run stored without its records. *)
Theorem results_and_statistics_belong_together (ms : list Move) :
  let pg := play ms in
  (List.length (inflight pg) <= 1)%nat /\
  (loading (view pg) = true <-> inflight pg <> []) /\
  (inflight pg = [] -> together (view pg)) /\
  (results (view pg) = [] \/ results (view pg) = sampleResults) /\
  (stats (view pg) = sampleStats -> results (view pg) = sampleResults).
Proof.
  cbn zeta. pose proof (play_consistent ms) as H.
  unfold consistent in H.
  destruct (inflight (play ms)) as [| ph [| ph' l]]; [| | destruct ph; contradiction].
  - destruct H as [Hl Ht]. split; [cbn; lia |].
    split; [rewrite Hl; split; [discriminate | intros N; contradiction N; reflexivity] |].
    split; [intros _; exact Ht |].
    destruct Ht as [[Hr [Hs _]] | [Hr [Hs _]]].
    + split; [left; exact Hr |]. intros E. rewrite Hs in E. discriminate E.
    + split; [right; exact Hr |]. intros _. exact Hr.
  - split; [cbn; lia |].
    assert (Hl : loading (view (play ms)) = true) by (destruct ph; apply H).
    split; [rewrite Hl; split; [intros _; discriminate | reflexivity] |].
    split; [discriminate |].
    destruct ph.
    + destruct H as [_ [[Hr [Hs _]] | [Hr [Hs _]]]].
      * split; [left; exact Hr |]. intros E. rewrite Hs in E. discriminate E.
      * split; [right; exact Hr |]. intros _. exact Hr.
    + destruct H as [_ [Hr _]]. split; [right; exact Hr | intros _; exact Hr].
    + destruct H as [_ [Hr _]]. split; [right; exact Hr | intros _; exact Hr].
    + destruct H as [_ [[Hr [Hs _]] | [Hr [Hs _]]]].
      * split; [left; exact Hr |]. intros E. rewrite Hs in E. discriminate E.
      * split; [right; exact Hr |]. intros _. exact Hr.
Qed.

(** The states between the statements are reached: while the promise is
    pending the flag is up and the date inputs still take edits; after a
    first run has fulfilled, the table is shown with the records a step
    before the statistics arrive. *)
Example page_while_awaiting :
  let pg := play [EditStart "2024-01-01"; EditEnd "2024-03-01"; Click;
                  EditStart "2024-02-01"] in
  loading (view pg) = true /\ inflight pg = [Awaiting] /\
  startDate (view pg) = "2024-02-01" /\ button_disabled (view pg) = true.
Proof. repeat split. Qed.

Example page_between_statements :
  let pg := play [EditStart "2024-01-01"; EditEnd "2024-03-01"; Click;
                  Advance 0 (Fulfilled tt)] in
  results (view pg) = sampleResults /\ stats (view pg) = stats init /\
  loading (view pg) = true.
Proof. repeat split. Qed.

End BacktestStepsFacts.
